(** * Blogicum: the request handlers of [blog/views.py] and the forms of
    [blog/forms.py], as state-passing functions over the database tables.

    A table is a finite map from primary key to row ([gmap Z row]); a model
    instance is a pair of its primary key and its row.  A view takes the
    database and the request and returns the database after the request
    together with the response. *)

From stdpp Require Import gmap strings list fin_maps sorting.

Open Scope string_scope.
Open Scope Z_scope.

(** ** Data model *)

Record User := mkUser {
  username : string;
  first_name : string;
  last_name : string;
  email : string
}.

Record Category := mkCategory {
  cat_title : string;
  slug : string;
  description : string;
  cat_is_published : bool
}.

Record Post := mkPost {
  title : string;
  text : string;
  image : option string;
  pub_date : Z;
  is_published : bool;
  created_at : Z;
  author : Z;
  category : option Z;
  location : option Z
}.

Record Comment := mkComment {
  comment_text : string;
  comment_created_at : Z;
  comment_author : Z;
  comment_post : Z
}.

#[global] Instance User_eq_dec : EqDecision User.
Proof. solve_decision. Defined.
#[global] Instance Category_eq_dec : EqDecision Category.
Proof. solve_decision. Defined.
#[global] Instance Post_eq_dec : EqDecision Post.
Proof. solve_decision. Defined.
#[global] Instance Comment_eq_dec : EqDecision Comment.
Proof. solve_decision. Defined.

Record Db := mkDb {
  users : gmap Z User;
  categories : gmap Z Category;
  posts : gmap Z Post;
  comments : gmap Z Comment
}.

(** ** Requests and responses *)

(** [request.user]: [AnonymousUser], or the row of the logged-in user. *)
Inductive Identity :=
  | AnonymousUser
  | LoggedIn (u : Z * User).

Inductive Method := GET | POST.

(** A submitted form: field name to raw value. *)
Abbreviation FormData := (gmap string string).
(** [form.errors]: field name to its validation messages. *)
Abbreviation ErrorDict := (gmap string (list string)).

Record Request := mkRequest {
  user : Identity;
  method : Method;
  POST_data : FormData;
  FILES : FormData;
  GET_page : option Z;
  now : Z   (* the clock reading, [timezone.now()], while the request is served *)
}.

(** Targets of [redirect]: the named routes the views use, and the login
    page [login_required] sends anonymous requests to. *)
Inductive Url :=
  | url_index
  | url_post_detail (post_id : Z)
  | url_profile (name : string)
  | url_login.

(** A bound or unbound form as the templates receive it. *)
Record Form := mkForm {
  form_data : option FormData;
  form_files : option FormData
}.

Record Page (A : Type) := mkPage {
  object_list : list A;
  number : nat;
  num_pages : nat;
  has_next : bool;
  has_previous : bool
}.
Arguments mkPage {A}.
Arguments object_list {A}.
Arguments number {A}.
Arguments num_pages {A}.
Arguments has_next {A}.
Arguments has_previous {A}.

(** The context dictionaries handed to [render], one shape per view. *)
Inductive Context :=
  | ctx_index (page_obj : Page (Z * Post))
  | ctx_category (category : Z * Category) (page_obj : Page (Z * Post))
  | ctx_detail (post : Z * Post) (form : Form) (comments : list (Z * Comment))
  | ctx_form (form : Form)
  | ctx_profile (profile : Z * User) (page_obj : Page (Z * Post))
  | ctx_comment_form (form : Form) (comment : Z * Comment)
  | ctx_comment (comment : Z * Comment).

Inductive Response :=
  | Render (template : string) (context : Context)
  | Redirect (to : Url)
  | Http404
  | Exception (name : string).   (* an exception no view catches *)

(** ** ORM operations *)

Inductive GetResult (A : Type) :=
  | Found (x : A)
  | DoesNotExist
  | Multiple.
Arguments Found {A}.
Arguments DoesNotExist {A}.
Arguments Multiple {A}.

(** [QuerySet.get]: the single row of the query set, or one of the two
    exceptions. *)
Definition queryset_get {A} (qs : list A) : GetResult A :=
  match qs with
  | [] => DoesNotExist
  | [x] => Found x
  | _ => Multiple
  end.

(** [Model.objects.all()]: the rows of a table with their keys. *)
Definition objects {A} (table : gmap Z A) : list (Z * A) := map_to_list table.

(** [qs.filter(id=pk)] on a query set of instances. *)
Definition filter_id {A} (pk : Z) (qs : list (Z * A)) : list (Z * A) :=
  filter (λ r, r.1 = pk) qs.

(** Primary key given to a row saved for the first time. *)
Definition new_pk {A} (table : gmap Z A) : Z :=
  1 + foldr Z.max 0 (objects table).*1.

(** Reverse relations: [user.posts], [category.posts], [post.comments]. *)
Definition user_posts (db : Db) (uid : Z) : list (Z * Post) :=
  filter (λ r, author r.2 = uid) (objects (posts db)).

Definition category_posts_manager (db : Db) (cid : Z) : list (Z * Post) :=
  filter (λ r, category r.2 = Some cid) (objects (posts db)).

Definition post_comments (db : Db) (pid : Z) : list (Z * Comment) :=
  filter (λ r, comment_post r.2 = pid) (objects (comments db)).

(** [order_by('created_at')]: ascending, rows with equal keys kept in the
    order of the query set. *)
Definition created_le (a b : Z * Comment) : Prop :=
  comment_created_at a.2 ≤ comment_created_at b.2.

#[global] Instance created_le_dec a b : Decision (created_le a b).
Proof. unfold created_le. apply _. Defined.

Definition order_by_created_at (qs : list (Z * Comment)) : list (Z * Comment) :=
  merge_sort created_le qs.

(** [post.author != request.user], [request.user != comment.author],
    [profile != request.user]: model instances are equal when their
    primary keys are; [AnonymousUser] equals no row. *)
Definition user_is (ident : Identity) (uid : Z) : bool :=
  match ident with
  | AnonymousUser => false
  | LoggedIn u => bool_decide (u.1 = uid)
  end.

(** ** Forms ([blog/forms.py])

    Validation itself belongs to the form library and to the field
    declarations of the models: it is a parameter of the development.  What
    [forms.py] fixes is the set of fields each form reads. *)

Record Validator (R C : Type) := mkValidator {
  (* [form.errors] of a bound form, for the instance being edited if any *)
  v_errors : Db → option (Z * R) → FormData → FormData → ErrorDict;
  (* [form.cleaned_data] *)
  v_cleaned : option (Z * R) → FormData → FormData → C
}.
Arguments v_errors {R C}.
Arguments v_cleaned {R C}.

(** Modelled from the spec: [blog/models.py] is not among the sources; the
    fields of a post are those the data model lists. *)
Definition Post_fields : list string :=
  ["title"; "text"; "image"; "pub_date"; "is_published"; "created_at";
   "author"; "category"; "location"].

Definition PostForm_exclude : list string := ["author"; "created_at"].

Definition PostForm_fields : list string :=
  filter (λ f, f ∉ PostForm_exclude) Post_fields.

Definition CommentForm_fields : list string := ["text"].

Definition ProfileForm_fields : list string :=
  ["username"; "first_name"; "last_name"; "email"].

(** The values a [PostForm] produces: one per field of the form. *)
Record PostCleaned := mkPostCleaned {
  c_title : string;
  c_text : string;
  c_image : option string;
  c_pub_date : Z;
  c_is_published : bool;
  c_category : option Z;
  c_location : option Z
}.

(** [request.POST or None]: an empty dictionary is falsy. *)
Definition or_None (d : FormData) : option FormData :=
  if decide (d = ∅) then None else Some d.

(** Modelled from the spec: [blog/models.py] is not among the sources; the
    image of a post is the only uploaded file of the data model. *)
Definition file_fields : list string := ["image"].

(** The keys the widget of a field reads from a submission: the name of the
    field and, for a file field, the check box that clears the file. *)
Definition widget_keys (field : string) : list string :=
  if bool_decide (field ∈ file_fields)
  then [field; field +:+ "-clear"]
  else [field].

Definition form_keys (fields : list string) : list string :=
  fields ≫= widget_keys.

(** A form only reads the keys of the widgets of its own fields. *)
Definition restrict (fields : list string) (d : option FormData) : FormData :=
  filter (λ kv, kv.1 ∈ form_keys fields) (default ∅ d).

Definition is_bound (f : Form) : bool :=
  bool_decide (is_Some (form_data f)) || bool_decide (is_Some (form_files f)).

Section ModelForm.
Context {R C : Type} (fields : list string) (V : Validator R C).

Definition form_errors (db : Db) (instance : option (Z * R)) (f : Form)
  : ErrorDict :=
  if is_bound f
  then v_errors V db instance
         (restrict fields (form_data f)) (restrict fields (form_files f))
  else ∅.

Definition is_valid (db : Db) (instance : option (Z * R)) (f : Form) : bool :=
  is_bound f && bool_decide (form_errors db instance f = ∅).

Definition cleaned_data (instance : option (Z * R)) (f : Form) : C :=
  v_cleaned V instance
    (restrict fields (form_data f)) (restrict fields (form_files f)).
End ModelForm.

(** [form.save(commit=False)] of a [PostForm]: the form's fields are written
    on the instance, the excluded ones are left as they are. *)
Definition construct_post (c : PostCleaned) (author created_at : Z) : Post :=
  {| title := c_title c; text := c_text c; image := c_image c;
     pub_date := c_pub_date c; is_published := c_is_published c;
     created_at := created_at; author := author;
     category := c_category c; location := c_location c |}.

Definition construct_comment (text : string) (created_at author post : Z)
  : Comment :=
  {| comment_text := text; comment_created_at := created_at;
     comment_author := author; comment_post := post |}.

(** ** Table updates *)

Definition set_users (db : Db) (t : gmap Z User) : Db :=
  {| users := t; categories := categories db; posts := posts db;
     comments := comments db |}.

Definition set_posts (db : Db) (t : gmap Z Post) : Db :=
  {| users := users db; categories := categories db; posts := t;
     comments := comments db |}.

Definition set_comments (db : Db) (t : gmap Z Comment) : Db :=
  {| users := users db; categories := categories db; posts := posts db;
     comments := t |}.

(** [post.delete()].  Modelled from the spec: the deletion rule of the
    foreign key [Comment.post] is declared in [blog/models.py]; a comment
    always belongs to a post, so the comments of a deleted post go with it. *)
Definition Post_delete (db : Db) (pid : Z) : Db :=
  {| users := users db; categories := categories db;
     posts := delete pid (posts db);
     comments := filter (λ kv, comment_post kv.2 ≠ pid) (comments db) |}.

(** ** [blog/utils.py] *)

(** Modelled from the spec: [query_post] of [blog/utils.py] is not among the
    sources.  Section 4.1: the predicate is
    [is_published AND pub_date <= currentTime AND
     (category is null OR category.is_published)]. *)
Definition visible (db : Db) (t : Z) (p : Post) : bool :=
  is_published p && bool_decide (pub_date p ≤ t) &&
  match category p with
  | None => true
  | Some c =>
      match categories db !! c with
      | Some cat => cat_is_published cat
      | None => false
      end
  end.

(** Modelled from the spec: most recent [pub_date] first, ties by
    identifier. *)
Definition newer_first (a b : Z * Post) : Prop :=
  pub_date b.2 < pub_date a.2 ∨ (pub_date a.2 = pub_date b.2 ∧ a.1 ≤ b.1).

#[global] Instance newer_first_dec a b : Decision (newer_first a b).
Proof. unfold newer_first. apply _. Defined.

(** Modelled from the spec: [query_post] of [blog/utils.py] is not among the
    sources.  Section 4.1, [visiblePosts]: with [filters] off the collection
    is returned unfiltered, otherwise the visibility predicate is applied;
    the result is ordered.  [filters] is on by default. *)
Definition query_post (db : Db) (t : Z) (manager : list (Z * Post))
    (filters : bool) : list (Z * Post) :=
  merge_sort newer_first
    (if filters then filter (λ r, visible db t r.2 = true) manager
     else manager).

Definition PAGE_SIZE : nat := 10.

(** Modelled from the spec: [posts_pagination] of [blog/utils.py] is not
    among the sources.  Section 4.2, [paginate]: pages of [pageSize] items,
    a page number out of range clamped to the first or the last page. *)
Definition paginate {A} (seq : list A) (pageNumber : Z) (pageSize : nat)
  : Page A :=
  let total := Nat.max 1 (Nat.div (length seq + pageSize - 1) pageSize) in
  let n := Z.to_nat (Z.max 1 (Z.min pageNumber (Z.of_nat total))) in
  {| object_list := take pageSize (drop ((n - 1) * pageSize) seq);
     number := n;
     num_pages := total;
     has_next := bool_decide (n < total)%nat;
     has_previous := bool_decide (1 < n)%nat |}.

(** Modelled from the spec: the page number is the request's page
    parameter, the first page when there is none. *)
Definition posts_pagination (request : Request) (posts : list (Z * Post))
  : Page (Z * Post) :=
  paginate posts (default 1 (GET_page request)) PAGE_SIZE.

(** ** Views ([blog/views.py]) *)

(** [get_object_or_404]: [Http404] when nothing matches; more than one match
    is the ORM's [MultipleObjectsReturned], which no view catches. *)
Definition get_object_or_404 {A} (qs : list A) : A + Response :=
  match queryset_get qs with
  | Found x => inl x
  | DoesNotExist => inr Http404
  | Multiple => inr (Exception "MultipleObjectsReturned")
  end.

(** [@login_required]: an anonymous request is sent to the login page and
    the view does not run. *)
Definition login_required (view : Db → Request → Db * Response)
    (db : Db) (request : Request) : Db * Response :=
  match user request with
  | AnonymousUser => (db, Redirect url_login)
  | LoggedIn _ => view db request
  end.

Definition index (db : Db) (request : Request) : Db * Response :=
  let page_obj :=
    posts_pagination request
      (query_post db (now request) (objects (posts db)) true) in
  (db, Render "blog/index.html" (ctx_index page_obj)).

Definition category_posts (db : Db) (request : Request) (category_slug : string)
  : Db * Response :=
  match get_object_or_404
          (filter (λ r, slug r.2 = category_slug ∧ cat_is_published r.2 = true)
                  (objects (categories db))) with
  | inr response => (db, response)
  | inl category =>
      let page_obj :=
        posts_pagination request
          (query_post db (now request)
             (category_posts_manager db category.1) true) in
      (db, Render "blog/category.html" (ctx_category category page_obj))
  end.

Definition post_detail (db : Db) (request : Request) (post_id : Z)
  : Db * Response :=
  match get_object_or_404 (filter_id post_id (objects (posts db))) with
  | inr response => (db, response)
  | inl post =>
      let lookup :=
        if negb (user_is (user request) (author post.2))
        then get_object_or_404
               (filter_id post_id
                  (query_post db (now request) (objects (posts db)) true))
        else inl post in
      match lookup with
      | inr response => (db, response)
      | inl post =>
          let comments := order_by_created_at (post_comments db post.1) in
          let form := mkForm None None in
          (db, Render "blog/detail.html" (ctx_detail post form comments))
      end
  end.

Definition profile (db : Db) (request : Request) (name : string)
  : Db * Response :=
  match get_object_or_404
          (filter (λ r, username r.2 = name) (objects (users db))) with
  | inr response => (db, response)
  | inl profile =>
      let posts :=
        query_post db (now request) (user_posts db profile.1)
          (negb (user_is (user request) profile.1)) in
      let page_obj := posts_pagination request posts in
      (db, Render "blog/profile.html" (ctx_profile profile page_obj))
  end.

Section Views.
Variable PostForm : Validator Post PostCleaned.
Variable CommentForm : Validator Comment string.
Variable ProfileForm : Validator User User.

Definition create_post_view (db : Db) (request : Request) : Db * Response :=
  let form := mkForm (or_None (POST_data request)) (or_None (FILES request)) in
  if is_valid PostForm_fields PostForm db None form then
    match user request with
    | AnonymousUser => (db, Exception "ValueError")
    | LoggedIn u =>
        let post :=
          construct_post (cleaned_data PostForm_fields PostForm None form)
            u.1 (now request) in
        let db' := set_posts db (<[new_pk (posts db) := post]> (posts db)) in
        (db', Redirect (url_profile (username u.2)))
    end
  else (db, Render "blog/create.html" (ctx_form form)).

Definition create_post := login_required create_post_view.

Definition edit_post_view (post_id : Z) (db : Db) (request : Request)
  : Db * Response :=
  match get_object_or_404 (filter_id post_id (objects (posts db))) with
  | inr response => (db, response)
  | inl post =>
      if negb (user_is (user request) (author post.2))
      then (db, Redirect (url_post_detail post_id))
      else
        let form := mkForm (or_None (POST_data request)) None in
        if is_valid PostForm_fields PostForm db (Some post) form then
          let post' :=
            construct_post
              (cleaned_data PostForm_fields PostForm (Some post) form)
              (author post.2) (created_at post.2) in
          (set_posts db (<[post.1 := post']> (posts db)),
           Redirect (url_post_detail post_id))
        else (db, Render "blog/create.html" (ctx_form form))
  end.

Definition edit_post (db : Db) (request : Request) (post_id : Z) :=
  login_required (edit_post_view post_id) db request.

Definition delete_post_view (post_id : Z) (db : Db) (request : Request)
  : Db * Response :=
  match get_object_or_404 (filter_id post_id (objects (posts db))) with
  | inr response => (db, response)
  | inl post =>
      if negb (user_is (user request) (author post.2))
      then (db, Redirect (url_post_detail post_id))
      else
        let form := mkForm (or_None (POST_data request)) None in
        match method request with
        | POST => (Post_delete db post.1, Redirect url_index)
        | GET => (db, Render "blog/create.html" (ctx_form form))
        end
  end.

Definition delete_post (db : Db) (request : Request) (post_id : Z) :=
  login_required (delete_post_view post_id) db request.

Definition edit_profile_view (db : Db) (request : Request) : Db * Response :=
  match user request with
  | AnonymousUser => (db, Exception "AttributeError")
  | LoggedIn u =>
      let form := mkForm (Some (POST_data request)) None in
      if is_valid ProfileForm_fields ProfileForm db (Some u) form then
        let u' := cleaned_data ProfileForm_fields ProfileForm (Some u) form in
        (set_users db (<[u.1 := u']> (users db)),
         Redirect (url_profile (username u')))
      else (db, Render "blog/user.html" (ctx_form form))
  end.

Definition edit_profile := login_required edit_profile_view.

Definition add_comment_view (post_id : Z) (db : Db) (request : Request)
  : Db * Response :=
  match get_object_or_404 (filter_id post_id (objects (posts db))) with
  | inr response => (db, response)
  | inl post =>
      let form := mkForm (or_None (POST_data request)) None in
      if is_valid CommentForm_fields CommentForm db None form then
        match user request with
        | AnonymousUser => (db, Exception "ValueError")
        | LoggedIn u =>
            let comment :=
              construct_comment
                (cleaned_data CommentForm_fields CommentForm None form)
                (now request) u.1 post.1 in
            (set_comments db
               (<[new_pk (comments db) := comment]> (comments db)),
             Redirect (url_post_detail post_id))
        end
      else (db, Redirect (url_post_detail post_id))
  end.

Definition add_comment (db : Db) (request : Request) (post_id : Z) :=
  login_required (add_comment_view post_id) db request.

Definition edit_comment_view (post_id comment_id : Z)
    (db : Db) (request : Request) : Db * Response :=
  match get_object_or_404 (filter_id comment_id (objects (comments db))) with
  | inr response => (db, response)
  | inl comment =>
      if negb (user_is (user request) (comment_author comment.2))
      then (db, Redirect (url_post_detail post_id))
      else
        let form := mkForm (or_None (POST_data request)) None in
        if is_valid CommentForm_fields CommentForm db (Some comment) form then
          let comment' :=
            construct_comment
              (cleaned_data CommentForm_fields CommentForm (Some comment) form)
              (comment_created_at comment.2) (comment_author comment.2)
              (comment_post comment.2) in
          (set_comments db (<[comment.1 := comment']> (comments db)),
           Redirect (url_post_detail post_id))
        else (db, Render "blog/comment.html" (ctx_comment_form form comment))
  end.

Definition edit_comment (db : Db) (request : Request)
    (post_id comment_id : Z) :=
  login_required (edit_comment_view post_id comment_id) db request.

Definition delete_comment_view (post_id comment_id : Z)
    (db : Db) (request : Request) : Db * Response :=
  match get_object_or_404 (filter_id comment_id (objects (comments db))) with
  | inr response => (db, response)
  | inl comment =>
      if negb (user_is (user request) (comment_author comment.2))
      then (db, Redirect (url_post_detail post_id))
      else
        match method request with
        | POST =>
            (set_comments db (delete comment.1 (comments db)),
             Redirect (url_post_detail post_id))
        | GET => (db, Render "blog/comment.html" (ctx_comment comment))
        end
  end.

Definition delete_comment (db : Db) (request : Request)
    (post_id comment_id : Z) :=
  login_required (delete_comment_view post_id comment_id) db request.
End Views.

(** * Notions the properties are stated with *)

(** The visibility predicate as the data model states it. *)
Definition visibility_predicate (db : Db) (t : Z) (p : Post) : Prop :=
  is_published p = true ∧ pub_date p ≤ t ∧
  (category p = None ∨
   ∃ c cat, category p = Some c ∧ categories db !! c = Some cat ∧
            cat_is_published cat = true).

Definition set_page (request : Request) (page : option Z) : Request :=
  {| user := user request; method := method request;
     POST_data := POST_data request; FILES := FILES request;
     GET_page := page; now := now request |}.

(** The page object of a listing response, and the posts on it. *)
Definition response_page (r : Response) : option (Page (Z * Post)) :=
  match r with
  | Render _ (ctx_index page_obj) => Some page_obj
  | Render _ (ctx_category _ page_obj) => Some page_obj
  | Render _ (ctx_profile _ page_obj) => Some page_obj
  | _ => None
  end.

Definition listing (r : Response) : list (Z * Post) :=
  match response_page r with
  | Some page_obj => object_list page_obj
  | None => []
  end.

(** The primary keys of the posts on the page of a listing response. *)
Definition listed_ids (r : Response) : list Z := (listing r).*1.

Definition total_pages (len pageSize : nat) : nat :=
  Nat.max 1 (Nat.div (len + pageSize - 1) pageSize).

Definition clamp_page (pageNumber : Z) (total : nat) : nat :=
  Z.to_nat (Z.max 1 (Z.min pageNumber (Z.of_nat total))).

(** A post a non-author must not see: unpublished, dated after the current
    time, or in an unpublished category. *)
Definition hidden (db : Db) (t : Z) (p : Post) : Prop :=
  is_published p = false ∨
  (t < pub_date p ∨
   ∃ c cat, category p = Some c ∧ categories db !! c = Some cat ∧
            cat_is_published cat = false).

(** [username] is the key profiles are looked up by: no two users share
    one. *)
Definition username_unique (db : Db) (name : string) : Prop :=
  ∀ i j u v, users db !! i = Some u → users db !! j = Some v →
             username u = name → username v = name → i = j.

Definition slug_unique (db : Db) (s : string) : Prop :=
  ∀ i j c d, categories db !! i = Some c → categories db !! j = Some d →
             slug c = s → slug d = s → i = j.

Definition set_POST (request : Request) (d : FormData) : Request :=
  {| user := user request; method := method request;
     POST_data := d; FILES := FILES request;
     GET_page := GET_page request; now := now request |}.

Definition set_user (request : Request) (who : Identity) : Request :=
  {| user := who; method := method request;
     POST_data := POST_data request; FILES := FILES request;
     GET_page := GET_page request; now := now request |}.

(** What a request by somebody other than the author is answered with:
    the login page for an anonymous request, the detail view of the post
    named in the URL otherwise. *)
Definition turned_away (request : Request) (post_id : Z) : Response :=
  match user request with
  | AnonymousUser => Redirect url_login
  | LoggedIn _ => Redirect (url_post_detail post_id)
  end.

(** A submission the form library rejects: the form is bound and has
    messages for at least one field. *)
Definition rejected {R C} (fields : list string) (V : Validator R C)
    (db : Db) (instance : option (Z * R)) (form : Form) : Prop :=
  is_bound form = true ∧ form_errors fields V db instance form ≠ ∅.

(** * A sample site *)

Fixpoint parse_digits (s : string) (acc : Z) : option Z :=
  match s with
  | EmptyString => Some acc
  | String a s' =>
      let d := Z.of_N (Ascii.N_of_ascii a) - 48 in
      if bool_decide (0 ≤ d ≤ 9) then parse_digits s' (10 * acc + d) else None
  end.

Definition parse_Z (s : string) : option Z :=
  match s with
  | EmptyString => None
  | _ => parse_digits s 0
  end.

Definition required (field : string) (d : FormData) : ErrorDict :=
  match d !! field with
  | Some (String _ _) => ∅
  | _ => {[ field := ["This field is required."] ]}
  end.

Definition whole_number (field : string) (d : FormData) : ErrorDict :=
  match d !! field with
  | Some v =>
      match parse_Z v with
      | Some _ => ∅
      | None => {[ field := ["Enter a whole number."] ]}
      end
  | None => ∅
  end.

Definition sample_PostForm : Validator Post PostCleaned :=
  {| v_errors := λ _ _ d _,
       required "title" d ∪ required "text" d ∪ required "pub_date" d
       ∪ whole_number "pub_date" d;
     v_cleaned := λ instance d files,
       {| c_title := default "" (d !! "title");
          c_text := default "" (d !! "text");
          c_image :=
            match d !! "image-clear", files !! "image" with
            | Some _, _ => None
            | None, Some upload => Some upload
            | None, None => instance ≫= λ post, image post.2
            end;
          c_pub_date := default 0 (d !! "pub_date" ≫= parse_Z);
          c_is_published := bool_decide (is_Some (d !! "is_published"));
          c_category := d !! "category" ≫= parse_Z;
          c_location := d !! "location" ≫= parse_Z |} |}.

Definition sample_CommentForm : Validator Comment string :=
  {| v_errors := λ _ _ d _, required "text" d;
     v_cleaned := λ _ d _, default "" (d !! "text") |}.

Definition sample_ProfileForm : Validator User User :=
  {| v_errors := λ _ _ d _, required "username" d;
     v_cleaned := λ _ d _,
       {| username := default "" (d !! "username");
          first_name := default "" (d !! "first_name");
          last_name := default "" (d !! "last_name");
          email := default "" (d !! "email") |} |}.

Definition alice : User := mkUser "alice" "Alice" "A" "alice@example.org".
Definition bob : User := mkUser "bob" "Bob" "B" "bob@example.org".

Definition travel : Category := mkCategory "Travel" "travel" "" true.
Definition drafts : Category := mkCategory "Drafts" "drafts" "" false.

Definition post1 : Post := mkPost "Lisbon" "..." None 10 true 9 1 (Some 1) None.
Definition post2 : Post := mkPost "Notes" "..." None 10 false 9 1 (Some 1) None.
Definition post3 : Post := mkPost "Soon" "..." None 1000 true 9 2 None None.
Definition post4 : Post := mkPost "Old" "..." None 10 true 9 2 (Some 2) None.

Definition comment1 : Comment := mkComment "first" 50 1 1.
Definition comment2 : Comment := mkComment "second" 30 2 1.
Definition comment3 : Comment := mkComment "third" 40 1 1.

Definition db0 : Db :=
  {| users := <[1 := alice]> (<[2 := bob]> ∅);
     categories := <[1 := travel]> (<[2 := drafts]> ∅);
     posts := <[1 := post1]> (<[2 := post2]> (<[3 := post3]> (<[4 := post4]> ∅)));
     comments :=
       <[1 := comment1]> (<[2 := comment2]> (<[3 := comment3]> ∅)) |}.

Definition request0 (who : Identity) (m : Method) (d : FormData) : Request :=
  {| user := who; method := m; POST_data := d; FILES := ∅;
     GET_page := None; now := 100 |}.

Definition as_alice : Identity := LoggedIn (1, alice).
Definition as_bob : Identity := LoggedIn (2, bob).

(** Submissions. *)
Definition token_only : FormData := {[ "csrfmiddlewaretoken" := "t" ]}.

Definition new_post_data : FormData :=
  <["title" := "Porto"]> (<["text" := "..."]> (<["pub_date" := "120"]>
  (<["author" := "2"]> ∅))).

Definition new_text_data : FormData := {[ "text" := "edited" ]}.

(** A table of 23 posts, all published, dated in the past, uncategorised. *)
Definition posts23 : gmap Z Post :=
  list_to_map
    (map (λ i, (Z.of_nat i,
                mkPost "post" "..." None (Z.of_nat i) true 0 1 None None))
         (seq 1 23)).

Definition db23 : Db :=
  {| users := <[1 := alice]> ∅; categories := ∅; posts := posts23;
     comments := ∅ |}.

Definition comments_of_post1 : list (Z * Comment) :=
  [(2, comment2); (3, comment3); (1, comment1)].

Definition edited_comment1 : Comment := mkComment "edited" 50 1 1.

Definition created_post5 : Post :=
  mkPost "Porto" "..." None 120 false 100 1 None None.

Definition edited_post1 : Post :=
  mkPost "Porto" "..." None 120 false 9 1 None None.



Definition added_comment4 : Comment := mkComment "edited" 100 2 2.

(** A post with an image, and an edit that keeps its text. *)
Definition post6 : Post :=
  mkPost "Photo" "..." (Some "a.png") 10 true 9 1 None None.

Definition db_photo : Db := set_posts db0 (<[6 := post6]> (posts db0)).

Definition photo_data : FormData :=
  <["title" := "Photo"]> (<["text" := "..."]> (<["pub_date" := "10"]> ∅)).

(** * Properties *)

(** ** Lookups by primary key *)

Lemma filter_key_absent {A} (l : list (Z * A)) (k : Z) :
  k ∉ l.*1 → filter (λ r, r.1 = k) l = [].
Proof.
  induction l as [|[j y] l IH]; intros Hk; [done|].
  rewrite fmap_cons, not_elem_of_cons in Hk. destruct Hk as [Hne Hk].
  rewrite filter_cons_False by (simpl in *; congruence). auto.
Qed.

Lemma filter_key_present {A} (l : list (Z * A)) (k : Z) (x : A) :
  NoDup l.*1 → (k, x) ∈ l → filter (λ r, r.1 = k) l = [(k, x)].
Proof.
  induction l as [|[j y] l IH]; intros Hnd Hin.
  - by apply elem_of_nil in Hin.
  - rewrite fmap_cons in Hnd. apply NoDup_cons in Hnd as [Hj Hnd].
    apply elem_of_cons in Hin as [Heq|Hin].
    + injection Heq as <- <-. rewrite filter_cons_True by done.
      by rewrite filter_key_absent.
    + assert (j ≠ k).
      { intros ->. apply Hj. apply (list_elem_of_fmap_2 fst) in Hin. done. }
      rewrite filter_cons_False by done. auto.
Qed.

Lemma filter_id_objects {A} (m : gmap Z A) (pk : Z) :
  filter_id pk (objects m) =
  match m !! pk with Some x => [(pk, x)] | None => [] end.
Proof.
  unfold filter_id, objects. destruct (m !! pk) as [x|] eqn:E.
  - apply filter_key_present.
    + apply NoDup_fst_map_to_list.
    + by apply elem_of_map_to_list.
  - apply filter_key_absent. intros Hin.
    apply list_elem_of_fmap in Hin as [[j y] [-> Hin]].
    apply elem_of_map_to_list in Hin. simpl in *. subst. congruence.
Qed.

Lemma get_by_pk {A} (m : gmap Z A) (pk : Z) :
  get_object_or_404 (filter_id pk (objects m)) =
  match m !! pk with Some x => inl (pk, x) | None => inr Http404 end.
Proof. rewrite filter_id_objects. by destruct (m !! pk). Qed.

(** ** The query set of [query_post] *)

Lemma query_post_Permutation db t manager filters :
  query_post db t manager filters ≡ₚ
  (if filters then filter (λ r, visible db t r.2 = true) manager else manager).
Proof. apply merge_sort_Permutation. Qed.

Lemma elem_of_query_post db t manager filters r :
  r ∈ query_post db t manager filters ↔
  r ∈ manager ∧ (filters = true → visible db t r.2 = true).
Proof.
  rewrite query_post_Permutation. destruct filters.
  - rewrite list_elem_of_filter. split; intros [H1 H2]; auto.
  - split; [intros H1; split; [done|discriminate]|by intros [H1 _]].
Qed.

Lemma get_visible_by_pk db t (pk : Z) :
  get_object_or_404 (filter_id pk (query_post db t (objects (posts db)) true)) =
  match posts db !! pk with
  | Some p => if visible db t p then inl (pk, p) else inr Http404
  | None => inr Http404
  end.
Proof.
  assert (filter_id pk (query_post db t (objects (posts db)) true) ≡ₚ
          filter (λ r, visible db t r.2 = true)
                 (filter_id pk (objects (posts db)))) as Hperm.
  { unfold filter_id. rewrite query_post_Permutation.
    rewrite !list_filter_filter.
    erewrite list_filter_iff; [reflexivity|]. intros r; simpl. tauto. }
  rewrite filter_id_objects in Hperm.
  destruct (posts db !! pk) as [p|].
  - destruct (visible db t p) eqn:Hv.
    + rewrite filter_cons_True in Hperm by done.
      apply Permutation_singleton_r in Hperm.
      unfold get_object_or_404. by rewrite Hperm.
    + rewrite filter_cons_False in Hperm by (simpl; congruence).
      apply Permutation_nil_r in Hperm.
      unfold get_object_or_404. by rewrite Hperm.
  - apply Permutation_nil_r in Hperm.
    unfold get_object_or_404. by rewrite Hperm.
Qed.

Lemma filter_none {A} (P : A → Prop) `{!∀ x, Decision (P x)} (l : list A) :
  (∀ y, y ∈ l → ¬ P y) → filter P l = [].
Proof.
  induction l as [|a l IH]; intros Hno; [done|].
  rewrite filter_cons_False by (apply Hno; left).
  apply IH. intros y Hy. apply Hno. by right.
Qed.

Lemma filter_unique {A} (P : A → Prop) `{!∀ x, Decision (P x)}
    (l : list A) (x : A) :
  NoDup l → x ∈ l → P x → (∀ y, y ∈ l → P y → y = x) → filter P l = [x].
Proof.
  induction l as [|a l IH]; intros Hnd Hin HP Huniq.
  - by apply elem_of_nil in Hin.
  - apply NoDup_cons in Hnd as [Ha Hnd].
    destruct (decide (P a)) as [HPa|HPa].
    + assert (a = x) as -> by (apply Huniq; [left|done]).
      rewrite filter_cons_True by done. f_equal.
      apply filter_none. intros y Hy HPy.
      assert (y = x) as -> by (apply Huniq; [by right|done]). done.
    + rewrite filter_cons_False by done.
      apply elem_of_cons in Hin as [->|Hin]; [done|].
      apply IH; auto. intros y Hy. apply Huniq. by right.
Qed.

(** ** Visibility *)

Lemma visible_iff db t p :
  visible db t p = true ↔ visibility_predicate db t p.
Proof.
  unfold visible, visibility_predicate.
  rewrite !andb_true_iff, bool_decide_eq_true.
  destruct (category p) as [c|].
  - destruct (categories db !! c) as [cat|] eqn:E.
    + split.
      * intros [[? ?] ?]. split_and!; auto. right. by exists c, cat.
      * intros (? & ? & [?|(c' & cat' & ? & ? & ?)]); [done|].
        simplify_eq. done.
    + split; [intros [_ ?]; done|].
      intros (? & ? & [?|(c' & cat' & ? & ? & ?)]); [done|].
      simplify_eq.
  - split; [intros [[? ?] _]; auto|intros (? & ? & _); auto].
Qed.

Lemma not_visible_iff db t p :
  visible db t p = false ↔ ¬ visibility_predicate db t p.
Proof. rewrite <- visible_iff. by destruct (visible db t p). Qed.

(** C3.  A post that exists but fails the visibility predicate is answered
    with [Http404] on its detail view for every viewer other than its
    author, anonymous viewers included; nothing is rendered. *)
Theorem post_detail_hidden_is_404 db request post_id p :
  posts db !! post_id = Some p →
  ¬ visibility_predicate db (now request) p →
  user_is (user request) (author p) = false →
  post_detail db request post_id = (db, Http404).
Proof.
  intros Hp Hhidden Hviewer. apply not_visible_iff in Hhidden.
  unfold post_detail. rewrite get_by_pk, Hp. simpl.
  rewrite Hviewer. simpl. rewrite get_visible_by_pk, Hp, Hhidden. done.
Qed.

(** ** Comments of the detail view *)

#[global] Instance created_le_total : Total created_le.
Proof. intros a b. unfold created_le. lia. Qed.

#[global] Instance created_le_trans : Transitive created_le.
Proof. intros a b c. unfold created_le. lia. Qed.

Lemma post_detail_inv db request post_id db' template post form cs :
  post_detail db request post_id =
    (db', Render template (ctx_detail post form cs)) →
  db' = db ∧ posts db !! post_id = Some post.2 ∧ post.1 = post_id ∧
  cs = order_by_created_at (post_comments db post_id).
Proof.
  unfold post_detail. rewrite get_by_pk.
  destruct (posts db !! post_id) as [p|] eqn:Hp; [|discriminate].
  simpl. destruct (user_is (user request) (author p)); simpl.
  - intros [= <- <- <- <- <-]. done.
  - rewrite get_visible_by_pk, Hp.
    destruct (visible db (now request) p); [|discriminate].
    intros [= <- <- <- <- <-]. done.
Qed.

(** C7.  Whenever the detail view of a post is rendered, its comments are
    the comments of that post, in non-decreasing order of [created_at]. *)
Theorem post_detail_comments_oldest_first
    db request post_id db' template post form cs :
  post_detail db request post_id =
    (db', Render template (ctx_detail post form cs)) →
  StronglySorted (λ a b, comment_created_at a.2 ≤ comment_created_at b.2) cs ∧
  cs ≡ₚ post_comments db post_id ∧
  (∀ c, c ∈ cs ↔ comments db !! c.1 = Some c.2 ∧ comment_post c.2 = post_id).
Proof.
  intros H. apply post_detail_inv in H as (_ & _ & _ & ->).
  unfold order_by_created_at. split_and!.
  - apply (StronglySorted_merge_sort created_le).
  - apply merge_sort_Permutation.
  - intros [k c]. rewrite merge_sort_Permutation.
    unfold post_comments, objects. rewrite list_elem_of_filter.
    rewrite elem_of_map_to_list. simpl. tauto.
Qed.

(** ** Pagination *)

Lemma paginate_unfold {A} (seq : list A) k ps :
  paginate seq k ps =
  let total := total_pages (length seq) ps in
  let n := clamp_page k total in
  {| object_list := take ps (drop ((n - 1) * ps) seq);
     number := n; num_pages := total;
     has_next := bool_decide (n < total)%nat;
     has_previous := bool_decide (1 < n)%nat |}.
Proof. reflexivity. Qed.

Lemma clamp_page_range k total :
  (1 ≤ total)%nat → (1 ≤ clamp_page k total ≤ total)%nat.
Proof. unfold clamp_page. lia. Qed.

Lemma clamp_page_idem k total :
  (1 ≤ total)%nat →
  clamp_page (Z.of_nat (clamp_page k total)) total = clamp_page k total.
Proof. unfold clamp_page. lia. Qed.

Lemma total_pages_pos len ps : (1 ≤ total_pages len ps)%nat.
Proof. unfold total_pages. lia. Qed.

Lemma paginate_clamped {A} (seq : list A) k ps :
  paginate seq k ps =
  paginate seq (Z.of_nat (clamp_page k (total_pages (length seq) ps))) ps.
Proof.
  rewrite !paginate_unfold. simpl.
  by rewrite clamp_page_idem by apply total_pages_pos.
Qed.

Lemma paginate_length {A} (seq : list A) k ps :
  (length (object_list (paginate seq k ps)) ≤ ps)%nat.
Proof. simpl. rewrite length_take. lia. Qed.

Lemma elem_of_paginate {A} (seq : list A) k ps x :
  x ∈ object_list (paginate seq k ps) → x ∈ seq.
Proof.
  simpl. intros H. apply elem_of_take in H as (i & H & _).
  rewrite lookup_drop in H. by eapply list_elem_of_lookup_2.
Qed.

Lemma paginate_covers {A} (seq : list A) ps x :
  (0 < ps)%nat → x ∈ seq →
  ∃ k, 1 ≤ k ∧ x ∈ object_list (paginate seq k ps).
Proof.
  intros Hps Hx. apply list_elem_of_lookup in Hx as [i Hi].
  pose proof (lookup_lt_Some _ _ _ Hi) as Hlen.
  pose proof (Nat.div_mod_eq i ps) as Hdm.
  pose proof (Nat.mod_upper_bound i ps ltac:(lia)) as Hr.
  set (q := (i `div` ps)%nat) in *. set (r := (i `mod` ps)%nat) in *.
  exists (Z.of_nat (q + 1)). split; [lia|].
  rewrite paginate_unfold. simpl.
  assert (q + 1 ≤ total_pages (length seq) ps)%nat as Hq.
  { unfold total_pages.
    assert (q + 1 ≤ (length seq + ps - 1) `div` ps)%nat; [|lia].
    apply Nat.div_le_lower_bound; [lia|]. nia. }
  assert (clamp_page (Z.of_nat (q + 1)) (total_pages (length seq) ps)
          = (q + 1)%nat) as -> by (unfold clamp_page; lia).
  apply elem_of_take. exists r. split; [|done].
  rewrite lookup_drop. rewrite <- Hi. f_equal. nia.
Qed.

Lemma paginate_23_first {A} (seq : list A) :
  length seq = 23%nat →
  length (object_list (paginate seq 1 10)) = 10%nat ∧
  has_next (paginate seq 1 10) = true.
Proof.
  intros Hlen. rewrite paginate_unfold, Hlen.
  change (clamp_page 1 (total_pages 23 10)) with 1%nat.
  cbn [object_list has_next].
  rewrite length_take, length_drop, Hlen. split; reflexivity.
Qed.

Lemma paginate_23_last {A} (seq : list A) :
  length seq = 23%nat →
  length (object_list (paginate seq 3 10)) = 3%nat ∧
  has_next (paginate seq 3 10) = false.
Proof.
  intros Hlen. rewrite paginate_unfold, Hlen.
  change (clamp_page 3 (total_pages 23 10)) with 3%nat.
  cbn [object_list has_next].
  rewrite length_take, length_drop, Hlen. split; reflexivity.
Qed.

(** C9.  Pages hold at most ten posts; a page number below the first page
    or beyond the last one is answered with the first or the last page,
    never with an error; with 23 visible posts, page 1 of the index has 10
    posts and a next page, page 3 has 3 posts and no next page. *)
Theorem index_pagination db request :
  PAGE_SIZE = 10%nat ∧
  (∀ k, ∃ page,
      index db (set_page request (Some k)) =
        (db, Render "blog/index.html" (ctx_index page)) ∧
      (length (object_list page) ≤ 10)%nat ∧
      (1 ≤ number page ≤ num_pages page)%nat ∧
      (k < 1 → number page = 1%nat) ∧
      (Z.of_nat (num_pages page) < k → number page = num_pages page) ∧
      (1 ≤ k ≤ Z.of_nat (num_pages page) → Z.of_nat (number page) = k) ∧
      index db (set_page request (Some (Z.of_nat (number page)))) =
        index db (set_page request (Some k))) ∧
  (length (filter (λ r, visible db (now request) r.2 = true)
             (objects (posts db))) = 23%nat →
   ∃ page1 page3,
     index db (set_page request (Some 1)) =
       (db, Render "blog/index.html" (ctx_index page1)) ∧
     length (object_list page1) = 10%nat ∧ has_next page1 = true ∧
     index db (set_page request (Some 3)) =
       (db, Render "blog/index.html" (ctx_index page3)) ∧
     length (object_list page3) = 3%nat ∧ has_next page3 = false).
Proof.
  split; [reflexivity|]. split.
  - intros k. unfold index, posts_pagination.
    cbn [GET_page set_page now default].
    set (seq := query_post _ _ _ _).
    pose proof (total_pages_pos (length seq) PAGE_SIZE) as Hpos.
    exists (paginate seq k PAGE_SIZE). split; [reflexivity|].
    split; [apply paginate_length|].
    rewrite paginate_unfold. cbn [number num_pages].
    split_and!; [unfold clamp_page; lia ..|].
    unfold index, posts_pagination. cbn [GET_page set_page now default].
    fold seq. unfold id. by rewrite <- paginate_clamped.
  - intros Hlen.
    assert (length (query_post db (now request) (objects (posts db)) true)
            = 23%nat) as Hq.
    { by rewrite query_post_Permutation. }
    exists (paginate (query_post db (now request) (objects (posts db)) true)
              1 10),
           (paginate (query_post db (now request) (objects (posts db)) true)
              3 10).
    destruct (paginate_23_first _ Hq) as [? ?].
    destruct (paginate_23_last _ Hq) as [? ?].
    split_and!; done.
Qed.

(** ** Listings *)

Lemma listing_index db request r :
  r ∈ listing (index db request).2 →
  posts db !! r.1 = Some r.2 ∧ visible db (now request) r.2 = true.
Proof.
  unfold index, listing, posts_pagination. cbn [snd response_page].
  intros H. apply elem_of_paginate, elem_of_query_post in H as [Hin Hv].
  split; [|auto]. destruct r. by apply elem_of_map_to_list.
Qed.

Lemma get_object_or_404_error {A} (qs : list A) resp :
  get_object_or_404 qs = inr resp → response_page resp = None.
Proof.
  unfold get_object_or_404. destruct (queryset_get qs); naive_solver.
Qed.

Lemma listing_category db request s r :
  r ∈ listing (category_posts db request s).2 →
  posts db !! r.1 = Some r.2 ∧ visible db (now request) r.2 = true.
Proof.
  unfold category_posts.
  destruct (get_object_or_404 _) as [cat|resp] eqn:Hget.
  - unfold listing, posts_pagination. cbn [snd response_page].
    intros H. apply elem_of_paginate, elem_of_query_post in H as [Hin Hv].
    split; [|auto]. unfold category_posts_manager in Hin.
    apply list_elem_of_filter in Hin as [_ Hin].
    destruct r. by apply elem_of_map_to_list.
  - apply get_object_or_404_error in Hget. unfold listing. cbn [snd].
    rewrite Hget. by intros ?%elem_of_nil.
Qed.

Lemma listing_profile db request name r :
  r ∈ listing (profile db request name).2 →
  posts db !! r.1 = Some r.2 ∧
  (user_is (user request) (author r.2) = false →
   visible db (now request) r.2 = true).
Proof.
  unfold profile.
  destruct (get_object_or_404 _) as [prof|resp] eqn:Hget.
  - unfold listing, posts_pagination. cbn [snd response_page].
    intros H. apply elem_of_paginate, elem_of_query_post in H as [Hin Hv].
    unfold user_posts in Hin. apply list_elem_of_filter in Hin as [Ha Hin].
    split; [destruct r; by apply elem_of_map_to_list|].
    intros Hviewer. apply Hv. rewrite <- Ha. by rewrite Hviewer.
  - apply get_object_or_404_error in Hget. unfold listing. cbn [snd].
    rewrite Hget. by intros ?%elem_of_nil.
Qed.

Lemma hidden_not_visible db t p : hidden db t p → visible db t p = false.
Proof.
  intros H. apply not_visible_iff. intros (Hpub & Hdate & Hcat).
  destruct H as [H|[H|(c & cat & Hc & Hcat' & Hunpub)]].
  - congruence.
  - lia.
  - destruct Hcat as [Hnone|(c' & cat' & Hc' & Hl & Hp)]; simplify_eq.
    congruence.
Qed.

(** C1.  A hidden post is on no page of the index, of any category listing
    or of any profile listing served to a viewer who is not its author. *)
Theorem hidden_post_not_listed db request post_id p :
  posts db !! post_id = Some p →
  hidden db (now request) p →
  user_is (user request) (author p) = false →
  (post_id ∉ listed_ids (index db request).2) ∧
  (∀ category_slug,
     post_id ∉ listed_ids (category_posts db request category_slug).2) ∧
  (∀ name, post_id ∉ listed_ids (profile db request name).2).
Proof.
  intros Hp Hhid Hviewer. apply hidden_not_visible in Hhid. unfold listed_ids.
  split_and!; [|intros s|intros name];
    intros ([k q] & -> & Hin)%list_elem_of_fmap; simpl in *.
  - apply listing_index in Hin as [Hl Hv]. simpl in *. congruence.
  - apply listing_category in Hin as [Hl Hv]. simpl in *. congruence.
  - apply listing_profile in Hin as [Hl Hv]. simpl in *.
    assert (q = p) as -> by congruence. rewrite Hv in Hhid; done.
Qed.

(** ** The author's own view *)

Lemma get_user_by_name db (u : Z * User) :
  users db !! u.1 = Some u.2 →
  username_unique db (username u.2) →
  get_object_or_404
    (filter (λ r, username r.2 = username u.2) (objects (users db))) = inl u.
Proof.
  intros Hu Huniq. destruct u as [i u]. simpl in *.
  rewrite (filter_unique _ _ (i, u)); [done| | |done|].
  - apply NoDup_map_to_list.
  - by apply elem_of_map_to_list.
  - intros [j v] Hin Hname. apply elem_of_map_to_list in Hin. simpl in *.
    assert (j = i) as -> by (eapply Huniq; eauto). congruence.
Qed.

(** C4.  The author of a post, whatever its publication state, gets its
    detail view rendered, and the post is on a page of the author's own
    profile listing. *)
Theorem author_sees_own_post db request post_id p u :
  posts db !! post_id = Some p →
  user request = LoggedIn u →
  author p = u.1 →
  users db !! u.1 = Some u.2 →
  username_unique db (username u.2) →
  (∃ comments,
     post_detail db request post_id =
       (db, Render "blog/detail.html"
              (ctx_detail (post_id, p) (mkForm None None) comments))) ∧
  (∃ k page_obj,
     profile db (set_page request (Some k)) (username u.2) =
       (db, Render "blog/profile.html" (ctx_profile u page_obj)) ∧
     (post_id, p) ∈ object_list page_obj).
Proof.
  intros Hp Huser Hauthor Hu Huniq. split.
  - unfold post_detail. rewrite get_by_pk, Hp. cbn [snd fst].
    rewrite Huser, Hauthor. cbn [user_is]. rewrite bool_decide_eq_true_2 by done.
    cbn [negb]. eauto.
  - assert ((post_id, p) ∈ query_post db (now request) (user_posts db u.1) false)
      as Hin.
    { apply elem_of_query_post. split; [|discriminate].
      unfold user_posts. apply list_elem_of_filter. split; [done|].
      by apply elem_of_map_to_list. }
    apply (paginate_covers _ PAGE_SIZE) in Hin as (k & _ & Hin);
      [|unfold PAGE_SIZE; lia].
    exists k, (paginate (query_post db (now request) (user_posts db u.1) false)
                 k PAGE_SIZE).
    split; [|done].
    unfold profile. rewrite (get_user_by_name db u Hu Huniq).
    cbn [set_page user now]. rewrite Huser. cbn [user_is].
    rewrite bool_decide_eq_true_2 by done. reflexivity.
Qed.

(** ** Category listing *)

(** C8.  A category listing is [Http404] when no category has the slug or
    when the category with the slug is unpublished; otherwise the page of
    that category's visible posts is rendered. *)
Theorem category_posts_404_or_listing db request category_slug :
  slug_unique db category_slug →
  ((∀ i c, categories db !! i = Some c → slug c ≠ category_slug) →
   category_posts db request category_slug = (db, Http404)) ∧
  (∀ i c, categories db !! i = Some c → slug c = category_slug →
     (cat_is_published c = false →
      category_posts db request category_slug = (db, Http404)) ∧
     (cat_is_published c = true →
      category_posts db request category_slug =
        (db, Render "blog/category.html"
           (ctx_category (i, c)
              (posts_pagination request
                 (query_post db (now request)
                    (category_posts_manager db i) true)))) ∧
      ∀ r, r ∈ query_post db (now request) (category_posts_manager db i) true
           ↔ posts db !! r.1 = Some r.2 ∧ category r.2 = Some i ∧
             visible db (now request) r.2 = true)).
Proof.
  intros Huniq. split; [|intros i c Hc Hslug; split].
  - intros Hnone. unfold category_posts.
    rewrite filter_none; [done|].
    intros [j d] Hin [Hs _]. apply elem_of_map_to_list in Hin.
    by apply (Hnone j d).
  - intros Hunpub. unfold category_posts.
    rewrite filter_none; [done|].
    intros [j d] Hin [Hs Hpub]. apply elem_of_map_to_list in Hin. simpl in *.
    assert (j = i) as -> by (eapply Huniq; eauto). congruence.
  - intros Hpub. split.
    + unfold category_posts.
      rewrite (filter_unique _ _ (i, c)); [done| | |done|].
      * apply NoDup_map_to_list.
      * by apply elem_of_map_to_list.
      * intros [j d] Hin [Hs _]. apply elem_of_map_to_list in Hin. simpl in *.
        assert (j = i) as -> by (eapply Huniq; eauto). congruence.
    + intros [k q]. rewrite elem_of_query_post. unfold category_posts_manager.
      rewrite list_elem_of_filter. unfold objects.
      rewrite elem_of_map_to_list. simpl. tauto.
Qed.

(** ** Saving rows *)

Lemma le_foldr_max (l : list Z) (k : Z) : k ∈ l → k ≤ foldr Z.max 0 l.
Proof.
  induction l as [|a l IH]; intros Hin.
  - by apply elem_of_nil in Hin.
  - simpl. apply elem_of_cons in Hin as [->|Hin]; [lia|].
    specialize (IH Hin). lia.
Qed.

Lemma new_pk_fresh {A} (m : gmap Z A) : m !! new_pk m = None.
Proof.
  destruct (m !! new_pk m) as [x|] eqn:E; [|done].
  apply elem_of_map_to_list in E.
  apply (list_elem_of_fmap_2 fst) in E. apply le_foldr_max in E.
  unfold new_pk, objects in E. simpl in E. lia.
Qed.

(** ** Forms *)

Lemma restrict_or_None fields (d : FormData) :
  restrict fields (or_None d) = filter (λ kv, kv.1 ∈ form_keys fields) d.
Proof.
  unfold restrict, or_None. destruct (decide (d = ∅)) as [->|]; [|done].
  simpl. by rewrite map_filter_empty.
Qed.

Lemma restrict_insert_other fields (d : FormData) (k v : string) :
  k ∉ form_keys fields →
  restrict fields (or_None (<[k := v]> d)) = restrict fields (or_None d).
Proof.
  intros Hk. rewrite !restrict_or_None.
  apply map_filter_insert_not. by intros y.
Qed.

Lemma or_None_Some (d : FormData) : d ≠ ∅ → or_None d = Some d.
Proof. intros H. unfold or_None. by rewrite decide_False. Qed.

Lemma author_not_in_PostForm : "author" ∉ form_keys PostForm_fields.
Proof.
  vm_compute. intros H.
  repeat (apply elem_of_cons in H as [?|H]; [done|]).
  by apply elem_of_nil in H.
Qed.

(** ** Handlers that write *)

Section WriteProperties.
Variable PostForm : Validator Post PostCleaned.
Variable CommentForm : Validator Comment string.
Variable ProfileForm : Validator User User.

(** C2, as amended.  An edit or delete request for a post or a comment by
    anybody but its author leaves the whole database as it was.  A
    logged-in requester is redirected to the detail view of the post
    whose id is in the URL, which for the post handlers is the post
    itself; an anonymous requester is redirected to the login page. *)
Theorem non_author_request_changes_nothing
    db request post_id comment_id :
  (∀ p, posts db !! post_id = Some p →
        user_is (user request) (author p) = false →
        edit_post PostForm db request post_id
          = (db, turned_away request post_id) ∧
        delete_post db request post_id
          = (db, turned_away request post_id)) ∧
  (∀ c, comments db !! comment_id = Some c →
        user_is (user request) (comment_author c) = false →
        edit_comment CommentForm db request post_id comment_id
          = (db, turned_away request post_id) ∧
        delete_comment db request post_id comment_id
          = (db, turned_away request post_id)).
Proof.
  split.
  - intros p Hp Hviewer.
    unfold edit_post, delete_post, login_required, turned_away.
    destruct (user request) as [|u] eqn:Hu; [done|].
    unfold edit_post_view, delete_post_view.
    rewrite get_by_pk, Hp, Hu. cbn [snd]. by rewrite Hviewer.
  - intros c Hc Hviewer.
    unfold edit_comment, delete_comment, login_required, turned_away.
    destruct (user request) as [|u] eqn:Hu; [done|].
    unfold edit_comment_view, delete_comment_view.
    rewrite get_by_pk, Hc, Hu. cbn [snd]. by rewrite Hviewer.
Qed.

(** C5.  A valid submission to [create_post] by a logged-in user stores
    exactly one new post, found afterwards under a key no post had, whose
    author is that user, and redirects to that user's profile; an [author]
    entry in the submitted data, whatever its value, changes neither the
    stored post nor the response. *)
Theorem create_post_author_is_requester db request u :
  user request = LoggedIn u →
  is_valid PostForm_fields PostForm db None
    (mkForm (or_None (POST_data request)) (or_None (FILES request))) = true →
  ∃ post,
    create_post PostForm db request =
      (set_posts db (<[new_pk (posts db) := post]> (posts db)),
       Redirect (url_profile (username u.2))) ∧
    posts db !! new_pk (posts db) = None ∧
    posts (create_post PostForm db request).1 !! new_pk (posts db)
      = Some post ∧
    author post = u.1 ∧
    (∀ j q, posts (create_post PostForm db request).1 !! j = Some q →
            j = new_pk (posts db) ∨ posts db !! j = Some q) ∧
    ∀ v, create_post PostForm db
           (set_POST request (<["author" := v]> (POST_data request)))
         = create_post PostForm db request.
Proof.
  intros Hu Hvalid.
  assert (create_post PostForm db request =
          (set_posts db
             (<[new_pk (posts db) :=
                  construct_post
                    (cleaned_data PostForm_fields PostForm None
                       (mkForm (or_None (POST_data request))
                          (or_None (FILES request))))
                    u.1 (now request)]> (posts db)),
           Redirect (url_profile (username u.2)))) as Hcreate.
  { unfold create_post, login_required, create_post_view.
    by rewrite Hu, Hvalid. }
  eexists. split_and!.
  - exact Hcreate.
  - apply new_pk_fresh.
  - rewrite Hcreate. cbn [fst posts set_posts]. apply lookup_insert_eq.
  - reflexivity.
  - intros j q. rewrite Hcreate. cbn [fst posts set_posts].
    destruct (decide (j = new_pk (posts db))) as [->|Hj]; [by left|].
    rewrite lookup_insert_ne by done. by right.
  - intros v.
    assert (is_valid PostForm_fields PostForm db None
              (mkForm (or_None (<["author" := v]> (POST_data request)))
                      (or_None (FILES request))) = true) as Hvalid'.
    { revert Hvalid. unfold is_valid, form_errors, is_bound.
      cbn [form_data form_files].
      rewrite (restrict_insert_other _ _ _ _ author_not_in_PostForm).
      rewrite (or_None_Some (<["author" := v]> _))
        by apply insert_non_empty.
      rewrite (bool_decide_eq_true_2 (is_Some (Some _))) by eauto.
      cbn [orb andb].
      destruct (bool_decide (is_Some (or_None (POST_data request))) ||
                bool_decide (is_Some (or_None (FILES request)))); done. }
    unfold create_post, login_required, create_post_view.
    cbn [set_POST user POST_data FILES now]. rewrite Hu, Hvalid, Hvalid'.
    unfold cleaned_data. cbn [form_data form_files].
    by rewrite (restrict_insert_other _ _ _ _ author_not_in_PostForm).
Qed.

Lemma rejected_not_valid {R C} fields (V : Validator R C) db instance form :
  rejected fields V db instance form →
  is_valid fields V db instance form = false.
Proof.
  intros [Hb He]. unfold is_valid. rewrite Hb.
  by rewrite bool_decide_eq_false_2.
Qed.

(** C6, as amended.  A rejected submission by a logged-in user stores
    nothing.  Creating a post, editing one's own post, editing one's own
    comment and editing the profile render the form again, the rejected
    form with its messages being the one handed to the template; adding a
    comment redirects to the detail view of the post instead. *)
Theorem rejected_submission_stores_nothing db request u :
  user request = LoggedIn u →
  (let form := mkForm (or_None (POST_data request))
                      (or_None (FILES request)) in
   rejected PostForm_fields PostForm db None form →
   create_post PostForm db request =
     (db, Render "blog/create.html" (ctx_form form))) ∧
  (∀ post_id p,
     let form := mkForm (or_None (POST_data request)) None in
     posts db !! post_id = Some p → author p = u.1 →
     rejected PostForm_fields PostForm db (Some (post_id, p)) form →
     edit_post PostForm db request post_id =
       (db, Render "blog/create.html" (ctx_form form))) ∧
  (∀ post_id comment_id c,
     let form := mkForm (or_None (POST_data request)) None in
     comments db !! comment_id = Some c → comment_author c = u.1 →
     rejected CommentForm_fields CommentForm db (Some (comment_id, c)) form →
     edit_comment CommentForm db request post_id comment_id =
       (db, Render "blog/comment.html"
              (ctx_comment_form form (comment_id, c)))) ∧
  (let form := mkForm (Some (POST_data request)) None in
   rejected ProfileForm_fields ProfileForm db (Some u) form →
   edit_profile ProfileForm db request =
     (db, Render "blog/user.html" (ctx_form form))) ∧
  (∀ post_id p,
     let form := mkForm (or_None (POST_data request)) None in
     posts db !! post_id = Some p →
     rejected CommentForm_fields CommentForm db None form →
     add_comment CommentForm db request post_id =
       (db, Redirect (url_post_detail post_id))).
Proof.
  intros Hu. split_and!.
  - intros form Hrej. apply rejected_not_valid in Hrej.
    unfold create_post, login_required, create_post_view.
    fold form. by rewrite Hu, Hrej.
  - intros post_id p form Hp Hauthor Hrej. apply rejected_not_valid in Hrej.
    unfold edit_post, login_required, edit_post_view.
    rewrite Hu, get_by_pk, Hp. cbn [user_is fst snd].
    rewrite bool_decide_eq_true_2 by done. cbn [negb].
    fold form. by rewrite Hrej.
  - intros post_id comment_id c form Hc Hauthor Hrej.
    apply rejected_not_valid in Hrej.
    unfold edit_comment, login_required, edit_comment_view.
    rewrite Hu, get_by_pk, Hc. cbn [user_is fst snd].
    rewrite bool_decide_eq_true_2 by done. cbn [negb].
    fold form. by rewrite Hrej.
  - intros form Hrej. apply rejected_not_valid in Hrej.
    unfold edit_profile, login_required, edit_profile_view.
    rewrite Hu. fold form. by rewrite Hrej.
  - intros post_id p form Hp Hrej. apply rejected_not_valid in Hrej.
    unfold add_comment, login_required, add_comment_view.
    rewrite Hu, get_by_pk, Hp. fold form. by rewrite Hrej.
Qed.

(** C10, as amended.  For a logged-in requester the comment handlers find
    the comment by [comment_id] alone.  What they do to the database is the
    same for every [post_id] in the URL; every redirect they answer with
    goes to the detail view of the [post_id] of the URL; and the author of
    a comment edits or deletes it through a URL with any [post_id], whether
    or not it is the post the comment belongs to: afterwards the comment is
    found with the submitted text and its old post, or is gone. *)
Theorem comment_handlers_ignore_post_id db request u post_id comment_id :
  user request = LoggedIn u →
  (∀ post_id',
     (edit_comment CommentForm db request post_id comment_id).1 =
     (edit_comment CommentForm db request post_id' comment_id).1 ∧
     (delete_comment db request post_id comment_id).1 =
     (delete_comment db request post_id' comment_id).1) ∧
  (∀ to,
     ((edit_comment CommentForm db request post_id comment_id).2 =
        Redirect to → to = url_post_detail post_id) ∧
     ((delete_comment db request post_id comment_id).2 =
        Redirect to → to = url_post_detail post_id)) ∧
  (∀ c,
     comments db !! comment_id = Some c → comment_author c = u.1 →
     (is_valid CommentForm_fields CommentForm db (Some (comment_id, c))
        (mkForm (or_None (POST_data request)) None) = true →
      let c' :=
        construct_comment
          (cleaned_data CommentForm_fields CommentForm (Some (comment_id, c))
             (mkForm (or_None (POST_data request)) None))
          (comment_created_at c) (comment_author c) (comment_post c) in
      edit_comment CommentForm db request post_id comment_id =
        (set_comments db (<[comment_id := c']> (comments db)),
         Redirect (url_post_detail post_id)) ∧
      comments (edit_comment CommentForm db request post_id comment_id).1
        !! comment_id = Some c' ∧
      comment_post c' = comment_post c) ∧
     (method request = POST →
      delete_comment db request post_id comment_id =
        (set_comments db (delete comment_id (comments db)),
         Redirect (url_post_detail post_id)) ∧
      comments (delete_comment db request post_id comment_id).1
        !! comment_id = None)).
Proof.
  intros Hu. split_and!.
  - intros post_id'.
    unfold edit_comment, delete_comment, login_required. rewrite Hu.
    unfold edit_comment_view, delete_comment_view. rewrite get_by_pk.
    destruct (comments db !! comment_id) as [c|]; [|done].
    rewrite Hu. cbn [fst snd].
    destruct (negb (user_is (LoggedIn u) (comment_author c))); [done|].
    split.
    + by destruct (is_valid _ _ _ _ _).
    + by destruct (method request).
  - intros to.
    unfold edit_comment, delete_comment, login_required. rewrite Hu.
    unfold edit_comment_view, delete_comment_view. rewrite get_by_pk.
    destruct (comments db !! comment_id) as [c|]; [|done].
    rewrite Hu. cbn [fst snd].
    destruct (negb (user_is (LoggedIn u) (comment_author c)));
      [split; cbn [snd]; congruence|].
    split.
    + destruct (is_valid _ _ _ _ _); cbn [snd]; congruence.
    + destruct (method request); cbn [snd]; congruence.
  - intros c Hc Hauthor. split.
    + intros Hvalid c'.
      assert (edit_comment CommentForm db request post_id comment_id =
              (set_comments db (<[comment_id := c']> (comments db)),
               Redirect (url_post_detail post_id))) as Hedit.
      { unfold edit_comment, login_required, edit_comment_view.
        rewrite Hu, get_by_pk, Hc. cbn [user_is fst snd].
        rewrite bool_decide_eq_true_2 by done. cbn [negb].
        by rewrite Hvalid. }
      split_and!; [done| |done].
      rewrite Hedit. cbn [fst comments set_comments].
      apply lookup_insert_eq.
    + intros Hm.
      assert (delete_comment db request post_id comment_id =
              (set_comments db (delete comment_id (comments db)),
               Redirect (url_post_detail post_id))) as Hdel.
      { unfold delete_comment, login_required, delete_comment_view.
        rewrite Hu, get_by_pk, Hc. cbn [user_is fst snd].
        rewrite bool_decide_eq_true_2 by done. cbn [negb].
        by rewrite Hm. }
      split; [done|].
      rewrite Hdel. cbn [fst comments set_comments].
      apply lookup_delete_eq.
Qed.
End WriteProperties.

(** * The properties on the sample site *)

(** Case analysis on a lookup in a concrete table. *)
Ltac table_cases H :=
  apply elem_of_map_to_list in H; vm_compute in H;
  repeat (apply elem_of_cons in H as [H|H]; [injection H as -> ->|]);
  try (by apply elem_of_nil in H).

Lemma username_unique_db0 name : username_unique db0 name.
Proof.
  intros i j u v Hi Hj Hu Hv.
  table_cases Hi; table_cases Hj; try reflexivity; subst; discriminate.
Qed.

Lemma slug_unique_db0 s : slug_unique db0 s.
Proof.
  intros i j c d Hi Hj Hc Hd.
  table_cases Hi; table_cases Hj; try reflexivity; subst; discriminate.
Qed.

Lemma hidden_post_not_listed_witness :
  (2 ∉ listed_ids (index db0 (request0 as_bob GET ∅)).2) ∧
  (∀ category_slug,
     2 ∉ listed_ids
           (category_posts db0 (request0 as_bob GET ∅) category_slug).2) ∧
  (∀ name, 2 ∉ listed_ids (profile db0 (request0 as_bob GET ∅) name).2).
Proof.
  apply (hidden_post_not_listed db0 (request0 as_bob GET ∅) 2 post2).
  - reflexivity.
  - left. reflexivity.
  - reflexivity.
Defined.

Lemma post_detail_hidden_is_404_witness :
  post_detail db0 (request0 AnonymousUser GET ∅) 2 = (db0, Http404).
Proof.
  apply (post_detail_hidden_is_404 db0 (request0 AnonymousUser GET ∅) 2 post2).
  - reflexivity.
  - apply not_visible_iff. reflexivity.
  - reflexivity.
Defined.

Lemma author_sees_own_post_witness :
  (∃ comments,
     post_detail db0 (request0 as_alice GET ∅) 2 =
       (db0, Render "blog/detail.html"
               (ctx_detail (2, post2) (mkForm None None) comments))) ∧
  (∃ k page_obj,
     profile db0 (set_page (request0 as_alice GET ∅) (Some k)) "alice" =
       (db0, Render "blog/profile.html" (ctx_profile (1, alice) page_obj)) ∧
     (2, post2) ∈ object_list page_obj).
Proof.
  apply (author_sees_own_post db0 (request0 as_alice GET ∅) 2 post2 (1, alice)).
  - reflexivity.
  - reflexivity.
  - reflexivity.
  - reflexivity.
  - apply username_unique_db0.
Defined.

Lemma post_detail_comments_oldest_first_witness :
  StronglySorted (λ a b, comment_created_at a.2 ≤ comment_created_at b.2)
    comments_of_post1 ∧
  comments_of_post1 ≡ₚ post_comments db0 1 ∧
  (∀ c, c ∈ comments_of_post1 ↔
        comments db0 !! c.1 = Some c.2 ∧ comment_post c.2 = 1).
Proof.
  apply (post_detail_comments_oldest_first db0 (request0 as_bob GET ∅) 1 db0
           "blog/detail.html" (1, post1) (mkForm None None)).
  vm_compute. reflexivity.
Defined.

Lemma category_posts_404_or_listing_witness :
  category_posts db0 (request0 as_bob GET ∅) "nowhere" = (db0, Http404) ∧
  category_posts db0 (request0 as_bob GET ∅) "drafts" = (db0, Http404) ∧
  category_posts db0 (request0 as_bob GET ∅) "travel" =
    (db0, Render "blog/category.html"
       (ctx_category (1, travel)
          (posts_pagination (request0 as_bob GET ∅)
             (query_post db0 100 (category_posts_manager db0 1) true)))).
Proof.
  split_and!.
  - apply (category_posts_404_or_listing db0 (request0 as_bob GET ∅) "nowhere").
    + apply slug_unique_db0.
    + intros i c Hc. table_cases Hc; discriminate.
  - apply (category_posts_404_or_listing db0 (request0 as_bob GET ∅) "drafts"
             (slug_unique_db0 _)) with (i := 2) (c := drafts); reflexivity.
  - apply (category_posts_404_or_listing db0 (request0 as_bob GET ∅) "travel"
             (slug_unique_db0 _)) with (i := 1) (c := travel); reflexivity.
Defined.

Lemma index_pagination_witness :
  length (filter (λ r, visible db23 100 r.2 = true) (objects (posts db23)))
    = 23%nat ∧
  ∃ page1 page3,
    index db23 (set_page (request0 AnonymousUser GET ∅) (Some 1)) =
      (db23, Render "blog/index.html" (ctx_index page1)) ∧
    length (object_list page1) = 10%nat ∧ has_next page1 = true ∧
    index db23 (set_page (request0 AnonymousUser GET ∅) (Some 3)) =
      (db23, Render "blog/index.html" (ctx_index page3)) ∧
    length (object_list page3) = 3%nat ∧ has_next page3 = false.
Proof.
  split; [vm_compute; reflexivity|].
  apply (index_pagination db23 (request0 AnonymousUser GET ∅)).
  vm_compute. reflexivity.
Defined.

Lemma non_author_request_changes_nothing_witness :
  (edit_post sample_PostForm db0 (request0 as_bob POST new_post_data) 1
     = (db0, Redirect (url_post_detail 1)) ∧
   delete_post db0 (request0 as_bob POST new_post_data) 1
     = (db0, Redirect (url_post_detail 1))) ∧
  (edit_comment sample_CommentForm db0 (request0 as_bob POST new_post_data) 1 1
     = (db0, Redirect (url_post_detail 1)) ∧
   delete_comment db0 (request0 as_bob POST new_post_data) 1 1
     = (db0, Redirect (url_post_detail 1))).
Proof.
  destruct (non_author_request_changes_nothing sample_PostForm
              sample_CommentForm db0 (request0 as_bob POST new_post_data) 1 1)
    as [Hpost Hcomment].
  split.
  - apply (Hpost post1); reflexivity.
  - apply (Hcomment comment1); reflexivity.
Defined.

(** C2, as stated, fails: bob, who did not write comment 1 of post 1, is
    redirected to the detail view of post 3, the post named in the URL, not
    to that of the comment's post; and an anonymous requester is redirected
    to the login page. *)
Lemma non_author_redirect_not_to_parent :
  comments db0 !! 1 = Some comment1 ∧ comment_post comment1 = 1 ∧
  user_is as_bob (comment_author comment1) = false ∧
  edit_comment sample_CommentForm db0 (request0 as_bob POST new_text_data) 3 1
    = (db0, Redirect (url_post_detail 3)) ∧
  delete_comment db0 (request0 as_bob POST new_text_data) 3 1
    = (db0, Redirect (url_post_detail 3)) ∧
  Redirect (url_post_detail 3) ≠
    Redirect (url_post_detail (comment_post comment1)) ∧
  user_is AnonymousUser (author post1) = false ∧
  edit_post sample_PostForm db0 (request0 AnonymousUser POST new_post_data) 1
    = (db0, Redirect url_login) ∧
  Redirect url_login ≠ Redirect (url_post_detail 1).
Proof. split_and!; try reflexivity; discriminate. Qed.

Lemma create_post_author_is_requester_witness :
  ∃ post,
    create_post sample_PostForm db0 (request0 as_alice POST new_post_data) =
      (set_posts db0 (<[new_pk (posts db0) := post]> (posts db0)),
       Redirect (url_profile "alice")) ∧
    posts db0 !! new_pk (posts db0) = None ∧
    posts (create_post sample_PostForm db0
             (request0 as_alice POST new_post_data)).1 !! new_pk (posts db0)
      = Some post ∧
    author post = 1 ∧
    (∀ j q,
       posts (create_post sample_PostForm db0
                (request0 as_alice POST new_post_data)).1 !! j = Some q →
       j = new_pk (posts db0) ∨ posts db0 !! j = Some q) ∧
    ∀ v, create_post sample_PostForm db0
           (set_POST (request0 as_alice POST new_post_data)
              (<["author" := v]> new_post_data))
         = create_post sample_PostForm db0
             (request0 as_alice POST new_post_data).
Proof.
  apply (create_post_author_is_requester sample_PostForm db0
           (request0 as_alice POST new_post_data) (1, alice)).
  - reflexivity.
  - vm_compute. reflexivity.
Defined.

Example create_post_sample :
  create_post sample_PostForm db0 (request0 as_alice POST new_post_data) =
    (set_posts db0 (<[5 := created_post5]> (posts db0)),
     Redirect (url_profile "alice")).
Proof. vm_compute. reflexivity. Qed.

Lemma rejected_token_only_post instance (files : option FormData) :
  rejected PostForm_fields sample_PostForm db0 instance
    (mkForm (Some token_only) files).
Proof.
  split; [reflexivity|].
  unfold form_errors. replace (is_bound _) with true by reflexivity.
  apply (bool_decide_unpack _). by vm_compute.
Qed.

Lemma rejected_token_only_comment instance :
  rejected CommentForm_fields sample_CommentForm db0 instance
    (mkForm (Some token_only) None).
Proof. split; [reflexivity|]. apply (bool_decide_unpack _). by vm_compute. Qed.

Lemma rejected_token_only_profile instance :
  rejected ProfileForm_fields sample_ProfileForm db0 instance
    (mkForm (Some token_only) None).
Proof. split; [reflexivity|]. apply (bool_decide_unpack _). by vm_compute. Qed.

Lemma rejected_submission_stores_nothing_witness :
  create_post sample_PostForm db0 (request0 as_alice POST token_only) =
    (db0, Render "blog/create.html" (ctx_form (mkForm (Some token_only) None))) ∧
  edit_post sample_PostForm db0 (request0 as_alice POST token_only) 1 =
    (db0, Render "blog/create.html" (ctx_form (mkForm (Some token_only) None))) ∧
  edit_comment sample_CommentForm db0 (request0 as_alice POST token_only) 1 1 =
    (db0, Render "blog/comment.html"
            (ctx_comment_form (mkForm (Some token_only) None) (1, comment1))) ∧
  edit_profile sample_ProfileForm db0 (request0 as_alice POST token_only) =
    (db0, Render "blog/user.html" (ctx_form (mkForm (Some token_only) None))) ∧
  add_comment sample_CommentForm db0 (request0 as_alice POST token_only) 1 =
    (db0, Redirect (url_post_detail 1)).
Proof.
  destruct (rejected_submission_stores_nothing sample_PostForm
              sample_CommentForm sample_ProfileForm db0
              (request0 as_alice POST token_only) (1, alice) eq_refl)
    as (Hcreate & Hedit & Hcomment & Hprofile & Hadd).
  split_and!.
  - apply Hcreate, rejected_token_only_post.
  - apply (Hedit 1 post1); [reflexivity..|]. apply rejected_token_only_post.
  - apply (Hcomment 1 1 comment1); [reflexivity..|].
    apply rejected_token_only_comment.
  - apply Hprofile, rejected_token_only_profile.
  - apply (Hadd 1 post1); [reflexivity|]. apply rejected_token_only_comment.
Defined.

(** C6, as stated, fails for [add_comment]: a submission without a text is
    rejected by the comment form, and the response is a redirect to the
    detail view of the post; no form is rendered. *)
Lemma add_comment_rejected_is_redirect :
  rejected CommentForm_fields sample_CommentForm db0 None
    (mkForm (or_None (POST_data (request0 as_alice POST token_only))) None) ∧
  add_comment sample_CommentForm db0 (request0 as_alice POST token_only) 1 =
    (db0, Redirect (url_post_detail 1)) ∧
  (∀ template context,
     (add_comment sample_CommentForm db0
        (request0 as_alice POST token_only) 1).2 ≠ Render template context).
Proof.
  split_and!.
  - apply rejected_token_only_comment.
  - vm_compute. reflexivity.
  - intros template context.
    replace (add_comment _ _ _ _) with (db0, Redirect (url_post_detail 1))
      by (vm_compute; reflexivity).
    discriminate.
Qed.

Lemma comment_handlers_ignore_post_id_witness :
  comment_post comment1 = 1 ∧
  (edit_comment sample_CommentForm db0
     (request0 as_alice POST new_text_data) 3 1
     = (set_comments db0 (<[1 := edited_comment1]> (comments db0)),
        Redirect (url_post_detail 3)) ∧
   comments (edit_comment sample_CommentForm db0
               (request0 as_alice POST new_text_data) 3 1).1 !! 1
     = Some edited_comment1 ∧
   comment_post edited_comment1 = comment_post comment1) ∧
  (delete_comment db0 (request0 as_alice POST new_text_data) 42 1
     = (set_comments db0 (delete 1 (comments db0)),
        Redirect (url_post_detail 42)) ∧
   comments (delete_comment db0
               (request0 as_alice POST new_text_data) 42 1).1 !! 1 = None).
Proof.
  split; [reflexivity|]. split.
  - destruct (comment_handlers_ignore_post_id sample_CommentForm db0
                (request0 as_alice POST new_text_data) (1, alice) 3 1 eq_refl)
      as (_ & _ & Hauthor).
    destruct (Hauthor comment1 eq_refl eq_refl) as [Hedit _].
    apply Hedit. vm_compute. reflexivity.
  - destruct (comment_handlers_ignore_post_id sample_CommentForm db0
                (request0 as_alice POST new_text_data) (1, alice) 42 1 eq_refl)
      as (_ & _ & Hauthor).
    destruct (Hauthor comment1 eq_refl eq_refl) as [_ Hdelete].
    apply Hdelete. reflexivity.
Defined.

(** C10, as stated, fails for an anonymous request: the redirect the
    comment handlers answer with goes to the login page, not to the detail
    view of the post named in the URL. *)
Lemma anonymous_comment_request_not_to_post :
  edit_comment sample_CommentForm db0
    (request0 AnonymousUser POST new_text_data) 3 1
    = (db0, Redirect url_login) ∧
  delete_comment db0 (request0 AnonymousUser POST new_text_data) 3 1
    = (db0, Redirect url_login) ∧
  Redirect url_login ≠ Redirect (url_post_detail 3).
Proof. split_and!; [reflexivity|reflexivity|discriminate]. Qed.

(** * Further properties of the handlers *)

Section HandlerProperties.
Variable PostForm : Validator Post PostCleaned.
Variable CommentForm : Validator Comment string.
Variable ProfileForm : Validator User User.

(** X1.  The four listing and detail views only read: whatever the request
    and whatever they answer, the database is the one they were given. *)
Theorem reading_views_leave_database db request :
  (index db request).1 = db ∧
  (∀ category_slug, (category_posts db request category_slug).1 = db) ∧
  (∀ post_id, (post_detail db request post_id).1 = db) ∧
  (∀ name, (profile db request name).1 = db).
Proof.
  split_and!; [done|intros s|intros post_id|intros name].
  - unfold category_posts. by case_match.
  - unfold post_detail. by repeat case_match.
  - unfold profile. by case_match.
Qed.

(** X2.  The seven views behind [login_required] answer an anonymous
    request with a redirect to the login page and change nothing, whether
    or not the record named in the URL exists; the four other views never
    send anybody to the login page. *)
Theorem anonymous_request_goes_to_login db request post_id comment_id :
  user request = AnonymousUser →
  create_post PostForm db request = (db, Redirect url_login) ∧
  edit_post PostForm db request post_id = (db, Redirect url_login) ∧
  delete_post db request post_id = (db, Redirect url_login) ∧
  edit_profile ProfileForm db request = (db, Redirect url_login) ∧
  add_comment CommentForm db request post_id = (db, Redirect url_login) ∧
  edit_comment CommentForm db request post_id comment_id
    = (db, Redirect url_login) ∧
  delete_comment db request post_id comment_id = (db, Redirect url_login) ∧
  (index db request).2 ≠ Redirect url_login ∧
  (∀ category_slug,
     (category_posts db request category_slug).2 ≠ Redirect url_login) ∧
  (post_detail db request post_id).2 ≠ Redirect url_login ∧
  (∀ name, (profile db request name).2 ≠ Redirect url_login).
Proof.
  intros Hu.
  unfold create_post, edit_post, delete_post, edit_profile, add_comment,
    edit_comment, delete_comment, login_required. rewrite Hu.
  split_and!; try done.
  - intros s. unfold category_posts, get_object_or_404.
    repeat case_match; simplify_eq; done.
  - unfold post_detail, get_object_or_404.
    repeat case_match; simplify_eq; done.
  - intros name. unfold profile, get_object_or_404.
    repeat case_match; simplify_eq; done.
Qed.

(** X3.  A logged-in request that names a post or a comment that does not
    exist is answered with [Http404] and changes nothing; for the comment
    handlers only the comment has to exist, the post of the URL is not
    looked up.  The detail view of a missing post and the profile of an
    unknown user name are [Http404] for every requester. *)
Theorem missing_record_is_404 db request u post_id comment_id :
  user request = LoggedIn u →
  (posts db !! post_id = None →
   edit_post PostForm db request post_id = (db, Http404) ∧
   delete_post db request post_id = (db, Http404) ∧
   add_comment CommentForm db request post_id = (db, Http404) ∧
   ∀ who, post_detail db (set_user request who) post_id = (db, Http404)) ∧
  (comments db !! comment_id = None →
   edit_comment CommentForm db request post_id comment_id = (db, Http404) ∧
   delete_comment db request post_id comment_id = (db, Http404)) ∧
  (∀ name,
     (∀ i v, users db !! i = Some v → username v ≠ name) →
     ∀ who, profile db (set_user request who) name = (db, Http404)).
Proof.
  intros Hu. split_and!.
  - intros Hp.
    unfold edit_post, delete_post, add_comment, login_required,
      edit_post_view, delete_post_view, add_comment_view, post_detail.
    rewrite Hu, !get_by_pk, Hp. done.
  - intros Hc.
    unfold edit_comment, delete_comment, login_required,
      edit_comment_view, delete_comment_view.
    rewrite Hu, !get_by_pk, Hc. done.
  - intros name Hnone who. unfold profile.
    rewrite filter_none; [done|].
    intros [j v] Hin Hname. apply elem_of_map_to_list in Hin.
    by apply (Hnone j v).
Qed.

(** X4.  A request without any submitted data stores nothing, whatever the
    validator would say about empty data: the form stays unbound.  The
    form views render the unbound form, [add_comment] redirects to the
    post. *)
Theorem empty_submission_stores_nothing db request u :
  user request = LoggedIn u →
  POST_data request = ∅ →
  (FILES request = ∅ →
   create_post PostForm db request =
     (db, Render "blog/create.html" (ctx_form (mkForm None None)))) ∧
  (∀ post_id p,
     posts db !! post_id = Some p → author p = u.1 →
     edit_post PostForm db request post_id =
       (db, Render "blog/create.html" (ctx_form (mkForm None None)))) ∧
  (∀ post_id comment_id c,
     comments db !! comment_id = Some c → comment_author c = u.1 →
     edit_comment CommentForm db request post_id comment_id =
       (db, Render "blog/comment.html"
              (ctx_comment_form (mkForm None None) (comment_id, c)))) ∧
  (∀ post_id p,
     posts db !! post_id = Some p →
     add_comment CommentForm db request post_id =
       (db, Redirect (url_post_detail post_id))).
Proof.
  intros Hu Hd. split_and!.
  - intros Hf.
    unfold create_post, login_required, create_post_view.
    rewrite Hu, Hd, Hf. done.
  - intros post_id p Hp Ha.
    unfold edit_post, login_required, edit_post_view.
    rewrite Hu, get_by_pk, Hp, Hd. cbn [user_is fst snd].
    rewrite bool_decide_eq_true_2 by done. done.
  - intros post_id comment_id c Hc Ha.
    unfold edit_comment, login_required, edit_comment_view.
    rewrite Hu, get_by_pk, Hc, Hd. cbn [user_is fst snd].
    rewrite bool_decide_eq_true_2 by done. done.
  - intros post_id p Hp.
    unfold add_comment, login_required, add_comment_view.
    rewrite Hu, get_by_pk, Hp, Hd. done.
Qed.

(** X5.  Whoever sends it and whatever it carries, a request to [edit_post]
    touches at most the row of the post named in the URL: that post keeps
    its author and its creation date and is never removed, no post is
    added, and users, categories and comments stay as they are. *)
Theorem edit_post_keeps_author_and_other_rows db request post_id :
  let db' := (edit_post PostForm db request post_id).1 in
  users db' = users db ∧ categories db' = categories db ∧
  comments db' = comments db ∧
  (∀ j, j ≠ post_id → posts db' !! j = posts db !! j) ∧
  (∀ p, posts db !! post_id = Some p →
        ∃ p', posts db' !! post_id = Some p' ∧
              author p' = author p ∧ created_at p' = created_at p) ∧
  (posts db !! post_id = None → posts db' !! post_id = None).
Proof.
  unfold edit_post, login_required, edit_post_view. rewrite get_by_pk.
  destruct (user request) as [|u]; [cbn; naive_solver|].
  destruct (posts db !! post_id) as [p|] eqn:Hp; [|cbn; naive_solver].
  cbn [fst snd].
  destruct (negb _); [cbn; rewrite Hp; naive_solver|].
  destruct (is_valid _ _ _ _ _); [|cbn; rewrite Hp; naive_solver].
  cbn. split_and!; try done.
  - intros j Hj. by rewrite lookup_insert_ne.
  - intros ? [= <-]. rewrite lookup_insert_eq. eauto.
Qed.

(** X6.  When the author of a post submits a valid edit, the row is
    replaced by the cleaned data under the same key, and the detail view
    the response redirects to shows the author the edited post with the
    comments it had. *)
Theorem edited_post_is_shown_to_author db request u post_id p :
  user request = LoggedIn u →
  posts db !! post_id = Some p →
  author p = u.1 →
  is_valid PostForm_fields PostForm db (Some (post_id, p))
    (mkForm (or_None (POST_data request)) None) = true →
  let p' :=
    construct_post
      (cleaned_data PostForm_fields PostForm (Some (post_id, p))
         (mkForm (or_None (POST_data request)) None))
      (author p) (created_at p) in
  let db' := set_posts db (<[post_id := p']> (posts db)) in
  edit_post PostForm db request post_id
    = (db', Redirect (url_post_detail post_id)) ∧
  post_detail db' request post_id =
    (db', Render "blog/detail.html"
            (ctx_detail (post_id, p') (mkForm None None)
               (order_by_created_at (post_comments db post_id)))).
Proof.
  intros Hu Hp Ha Hv p' db'. split.
  - unfold edit_post, login_required, edit_post_view.
    rewrite Hu, get_by_pk, Hp. cbn [user_is fst snd].
    rewrite bool_decide_eq_true_2 by done. cbn [negb]. by rewrite Hv.
  - unfold post_detail. rewrite get_by_pk. unfold db' at 1.
    cbn [posts set_posts]. rewrite lookup_insert_eq. cbn [fst snd].
    rewrite Hu. cbn [user_is author p' construct_post].
    rewrite bool_decide_eq_true_2 by done. done.
Qed.

(** X7.  A valid comment by a logged-in user on an existing post, visible
    to that user or not, is stored under a fresh key with the requester as
    author and the post of the URL as parent; whenever the detail view of
    that post is rendered afterwards, the new comment is among its comments
    together with all earlier ones. *)
Theorem added_comment_is_stored_and_shown db request u post_id p :
  user request = LoggedIn u →
  posts db !! post_id = Some p →
  is_valid CommentForm_fields CommentForm db None
    (mkForm (or_None (POST_data request)) None) = true →
  let k := new_pk (comments db) in
  let c :=
    construct_comment
      (cleaned_data CommentForm_fields CommentForm None
         (mkForm (or_None (POST_data request)) None))
      (now request) u.1 post_id in
  let db' := set_comments db (<[k := c]> (comments db)) in
  add_comment CommentForm db request post_id
    = (db', Redirect (url_post_detail post_id)) ∧
  comments db !! k = None ∧
  (∀ request' db'' template post form cs,
     post_detail db' request' post_id =
       (db'', Render template (ctx_detail post form cs)) →
     (k, c) ∈ cs ∧
     ∀ r, r ∈ order_by_created_at (post_comments db post_id) → r ∈ cs) ∧
  (author p = u.1 →
   ∃ cs, post_detail db' request post_id =
           (db', Render "blog/detail.html"
                   (ctx_detail (post_id, p) (mkForm None None) cs))).
Proof.
  intros Hu Hp Hv k c db'.
  assert (comments db !! k = None) as Hk by apply new_pk_fresh.
  split_and!; [|done| |].
  - unfold add_comment, login_required, add_comment_view.
    rewrite Hu, get_by_pk, Hp, Hv. done.
  - intros request' db'' template post form cs H.
    apply post_detail_inv in H as (_ & _ & _ & ->).
    unfold order_by_created_at, post_comments, objects.
    split; [|intros [j c0]]; rewrite ?merge_sort_Permutation,
      ?list_elem_of_filter, ?elem_of_map_to_list; cbn.
    + split; [done|]. apply lookup_insert_eq.
    + intros [Hpost Hl]. split; [done|].
      rewrite lookup_insert_ne; [done|]. intros <-. congruence.
  - intros Ha. eexists. unfold post_detail. rewrite get_by_pk.
    cbn [posts db' set_comments]. rewrite Hp, Hu. cbn [user_is fst snd].
    rewrite bool_decide_eq_true_2 by done. reflexivity.
Qed.

(** X8.  [create_post] and [add_comment] only ever add a row: every post
    and every comment there was is still there, unchanged, and the tables
    the view does not write to are the same. *)
Theorem creating_keeps_existing_rows db request post_id :
  (let db' := (create_post PostForm db request).1 in
   users db' = users db ∧ categories db' = categories db ∧
   comments db' = comments db ∧
   ∀ j q, posts db !! j = Some q → posts db' !! j = Some q) ∧
  (let db' := (add_comment CommentForm db request post_id).1 in
   users db' = users db ∧ categories db' = categories db ∧
   posts db' = posts db ∧
   ∀ j c, comments db !! j = Some c → comments db' !! j = Some c).
Proof.
  split.
  - unfold create_post, login_required, create_post_view.
    destruct (user request) as [|u]; [cbn; naive_solver|].
    destruct (is_valid _ _ _ _ _); [|cbn; naive_solver].
    cbn. split_and!; try done. intros j q Hj.
    rewrite lookup_insert_ne; [done|]. intros <-.
    by rewrite new_pk_fresh in Hj.
  - unfold add_comment, login_required, add_comment_view. rewrite get_by_pk.
    destruct (user request) as [|u]; [cbn; naive_solver|].
    destruct (posts db !! post_id) as [p|]; [|cbn; naive_solver].
    destruct (is_valid _ _ _ _ _); [|cbn; naive_solver].
    cbn. split_and!; try done. intros j c Hj.
    rewrite lookup_insert_ne; [done|]. intros <-.
    by rewrite new_pk_fresh in Hj.
Qed.

(** X9.  A post created by a valid submission is stored under a key no
    post had, and its detail view is rendered to its author at once,
    whatever its publication flag and date. *)
Theorem created_post_is_shown_to_author db request u :
  user request = LoggedIn u →
  is_valid PostForm_fields PostForm db None
    (mkForm (or_None (POST_data request)) (or_None (FILES request))) = true →
  let k := new_pk (posts db) in
  let p :=
    construct_post
      (cleaned_data PostForm_fields PostForm None
         (mkForm (or_None (POST_data request)) (or_None (FILES request))))
      u.1 (now request) in
  let db' := (create_post PostForm db request).1 in
  posts db !! k = None ∧ posts db' !! k = Some p ∧
  post_detail db' request k =
    (db', Render "blog/detail.html"
            (ctx_detail (k, p) (mkForm None None)
               (order_by_created_at (post_comments db k)))).
Proof.
  intros Hu Hv k p db'.
  assert (db' = set_posts db (<[k := p]> (posts db))) as Hdb.
  { unfold db', create_post, login_required, create_post_view.
    by rewrite Hu, Hv. }
  clearbody db'. subst db'. split_and!.
  - apply new_pk_fresh.
  - apply lookup_insert_eq.
  - unfold post_detail. rewrite get_by_pk.
    cbn [posts set_posts]. rewrite lookup_insert_eq. cbn [fst snd].
    rewrite Hu. cbn [user_is author p construct_post].
    rewrite bool_decide_eq_true_2 by done. done.
Qed.

(** X10.  Whoever sends it and whatever it carries, a request to
    [edit_comment] touches at most the row of the comment named in the URL:
    that comment keeps its author, its post and its creation date and is
    never removed, no comment is added, and users, categories and posts
    stay as they are. *)
Theorem edit_comment_changes_text_only db request post_id comment_id :
  let db' := (edit_comment CommentForm db request post_id comment_id).1 in
  users db' = users db ∧ categories db' = categories db ∧
  posts db' = posts db ∧
  (∀ j, j ≠ comment_id → comments db' !! j = comments db !! j) ∧
  (∀ c, comments db !! comment_id = Some c →
        ∃ c', comments db' !! comment_id = Some c' ∧
              comment_author c' = comment_author c ∧
              comment_post c' = comment_post c ∧
              comment_created_at c' = comment_created_at c) ∧
  (comments db !! comment_id = None → comments db' !! comment_id = None).
Proof.
  unfold edit_comment, login_required, edit_comment_view. rewrite get_by_pk.
  destruct (user request) as [|u]; [cbn; naive_solver|].
  destruct (comments db !! comment_id) as [c|] eqn:Hc; [|cbn; naive_solver].
  cbn [fst snd].
  destruct (negb _); [cbn; rewrite Hc; naive_solver|].
  destruct (is_valid _ _ _ _ _); [|cbn; rewrite Hc; naive_solver].
  cbn. split_and!; try done.
  - intros j Hj. by rewrite lookup_insert_ne.
  - intros ? [= <-]. rewrite lookup_insert_eq. eauto.
Qed.

(** X11.  [delete_comment] touches at most the comment named in the URL.
    For its author a GET shows the confirmation page and deletes nothing; a
    POST removes the comment, after which the same request, or an edit, is
    [Http404], and no detail view lists the comment any more. *)
Theorem delete_comment_removes_one_comment db request post_id comment_id :
  (let db' := (delete_comment db request post_id comment_id).1 in
   users db' = users db ∧ categories db' = categories db ∧
   posts db' = posts db ∧
   ∀ j, j ≠ comment_id → comments db' !! j = comments db !! j) ∧
  (∀ u c,
     user request = LoggedIn u →
     comments db !! comment_id = Some c → comment_author c = u.1 →
     (method request = GET →
      delete_comment db request post_id comment_id =
        (db, Render "blog/comment.html" (ctx_comment (comment_id, c)))) ∧
     (method request = POST →
      let db' := set_comments db (delete comment_id (comments db)) in
      delete_comment db request post_id comment_id
        = (db', Redirect (url_post_detail post_id)) ∧
      delete_comment db' request post_id comment_id = (db', Http404) ∧
      edit_comment CommentForm db' request post_id comment_id
        = (db', Http404) ∧
      ∀ request' pid db'' template post form cs,
        post_detail db' request' pid =
          (db'', Render template (ctx_detail post form cs)) →
        comment_id ∉ cs.*1)).
Proof.
  split.
  - unfold delete_comment, login_required, delete_comment_view.
    rewrite get_by_pk.
    destruct (user request) as [|u]; [cbn; naive_solver|].
    destruct (comments db !! comment_id) as [c|]; [|cbn; naive_solver].
    cbn [fst snd]. destruct (negb _); [cbn; naive_solver|].
    destruct (method request); [cbn; naive_solver|].
    cbn. split_and!; try done. intros j Hj. by rewrite lookup_delete_ne.
  - intros u c Hu Hc Ha.
    assert (delete_comment db request post_id comment_id =
            match method request with
            | POST => (set_comments db (delete comment_id (comments db)),
                       Redirect (url_post_detail post_id))
            | GET => (db, Render "blog/comment.html"
                            (ctx_comment (comment_id, c)))
            end) as Hdel.
    { unfold delete_comment, login_required, delete_comment_view.
      rewrite Hu, get_by_pk, Hc. cbn [user_is fst snd].
      rewrite bool_decide_eq_true_2 by done. done. }
    split; intros Hm; rewrite Hm in Hdel; [done|].
    intros db'. split_and!; [done| | |].
    + unfold delete_comment, login_required, delete_comment_view.
      rewrite Hu, get_by_pk. cbn [comments db' set_comments].
      by rewrite lookup_delete_eq.
    + unfold edit_comment, login_required, edit_comment_view.
      rewrite Hu, get_by_pk. cbn [comments db' set_comments].
      by rewrite lookup_delete_eq.
    + intros request' pid db'' template post form cs H.
      apply post_detail_inv in H as (_ & _ & _ & ->).
      intros ([j c0] & -> & Hin)%list_elem_of_fmap. revert Hin.
      unfold order_by_created_at, post_comments, objects.
      rewrite merge_sort_Permutation, list_elem_of_filter,
        elem_of_map_to_list.
      cbn. rewrite lookup_delete_eq. by intros [_ ?].
Qed.

(** X12.  [delete_post] leaves users, categories and every other post as
    they are.  For its author a GET shows the confirmation page and deletes
    nothing; a POST removes the post whatever data it carries (the form is
    built but never validated), after which the detail view, an edit, a
    second delete and a new comment are all [Http404]. *)
Theorem delete_post_removes_the_post db request post_id :
  (let db' := (delete_post db request post_id).1 in
   users db' = users db ∧ categories db' = categories db ∧
   ∀ j, j ≠ post_id → posts db' !! j = posts db !! j) ∧
  (∀ u p,
     user request = LoggedIn u →
     posts db !! post_id = Some p → author p = u.1 →
     (method request = GET →
      delete_post db request post_id =
        (db, Render "blog/create.html"
               (ctx_form (mkForm (or_None (POST_data request)) None)))) ∧
     (method request = POST →
      let db' := Post_delete db post_id in
      delete_post db request post_id = (db', Redirect url_index) ∧
      posts db' !! post_id = None ∧
      (∀ who, post_detail db' (set_user request who) post_id
              = (db', Http404)) ∧
      edit_post PostForm db' request post_id = (db', Http404) ∧
      delete_post db' request post_id = (db', Http404) ∧
      add_comment CommentForm db' request post_id = (db', Http404))).
Proof.
  split.
  - unfold delete_post, login_required, delete_post_view. rewrite get_by_pk.
    destruct (user request) as [|u]; [cbn; naive_solver|].
    destruct (posts db !! post_id) as [p|]; [|cbn; naive_solver].
    cbn [fst snd]. destruct (negb _); [cbn; naive_solver|].
    destruct (method request); [cbn; naive_solver|].
    cbn. split_and!; try done. intros j Hj. by rewrite lookup_delete_ne.
  - intros u p Hu Hp Ha.
    assert (delete_post db request post_id =
            match method request with
            | POST => (Post_delete db post_id, Redirect url_index)
            | GET => (db, Render "blog/create.html"
                            (ctx_form
                               (mkForm (or_None (POST_data request)) None)))
            end) as Hdel.
    { unfold delete_post, login_required, delete_post_view.
      rewrite Hu, get_by_pk, Hp. cbn [user_is fst snd].
      rewrite bool_decide_eq_true_2 by done. done. }
    split; intros Hm; rewrite Hm in Hdel; [done|].
    intros db'.
    assert (posts db' !! post_id = None) as Hgone
      by apply lookup_delete_eq.
    split_and!; [done|done|intros who| | |].
    + unfold post_detail. by rewrite get_by_pk, Hgone.
    + unfold edit_post, login_required, edit_post_view.
      by rewrite Hu, get_by_pk, Hgone.
    + unfold delete_post, login_required, delete_post_view.
      by rewrite Hu, get_by_pk, Hgone.
    + unfold add_comment, login_required, add_comment_view.
      by rewrite Hu, get_by_pk, Hgone.
Qed.


Lemma form_ignores_other_key {R C} fields (V : Validator R C) db instance
    (d : FormData) files (k v : string) :
  k ∉ form_keys fields → d ≠ ∅ →
  is_valid fields V db instance (mkForm (or_None (<[k := v]> d)) files)
    = is_valid fields V db instance (mkForm (or_None d) files) ∧
  cleaned_data fields V instance (mkForm (or_None (<[k := v]> d)) files)
    = cleaned_data fields V instance (mkForm (or_None d) files).
Proof.
  intros Hk Hd.
  unfold is_valid, form_errors, is_bound, cleaned_data.
  cbn [form_data form_files]. rewrite (restrict_insert_other _ _ _ _ Hk).
  rewrite (or_None_Some (<[k := v]> d)) by apply insert_non_empty.
  rewrite (or_None_Some d) by done.
  by rewrite !(bool_decide_eq_true_2 (is_Some (Some _))) by eauto.
Qed.

Lemma bound_form_ignores_other_key {R C} fields (V : Validator R C) db
    instance (d : FormData) files (k v : string) :
  k ∉ form_keys fields →
  is_valid fields V db instance (mkForm (Some (<[k := v]> d)) files)
    = is_valid fields V db instance (mkForm (Some d) files) ∧
  cleaned_data fields V instance (mkForm (Some (<[k := v]> d)) files)
    = cleaned_data fields V instance (mkForm (Some d) files).
Proof.
  intros Hk.
  assert (restrict fields (Some (<[k := v]> d)) = restrict fields (Some d))
    as Hr.
  { unfold restrict. cbn. apply map_filter_insert_not. by intros y. }
  unfold is_valid, form_errors, is_bound, cleaned_data.
  cbn [form_data form_files]. rewrite Hr. done.
Qed.

(** X14.  A form reads only the keys of the widgets of its own fields:
    the names of the fields and, for the image of a post, the check box
    [image-clear].  Adding or overwriting any other key in a non-empty
    submission changes neither what [add_comment] does and answers nor what
    [edit_comment] and [edit_post] store: a comment's author and post and a
    post's author and creation date cannot be submitted.  For
    [edit_profile], which binds every submission, the same holds without
    the submission having to be non-empty. *)
Theorem unlisted_keys_are_ignored db request k v post_id comment_id :
  form_keys CommentForm_fields = ["text"] ∧
  form_keys PostForm_fields =
    ["title"; "text"; "image"; "image-clear"; "pub_date"; "is_published";
     "category"; "location"] ∧
  form_keys ProfileForm_fields =
    ["username"; "first_name"; "last_name"; "email"] ∧
  (k ∉ form_keys CommentForm_fields → POST_data request ≠ ∅ →
   add_comment CommentForm db
     (set_POST request (<[k := v]> (POST_data request))) post_id
     = add_comment CommentForm db request post_id ∧
   (edit_comment CommentForm db
      (set_POST request (<[k := v]> (POST_data request)))
      post_id comment_id).1
     = (edit_comment CommentForm db request post_id comment_id).1) ∧
  (k ∉ form_keys PostForm_fields → POST_data request ≠ ∅ →
   (edit_post PostForm db
      (set_POST request (<[k := v]> (POST_data request))) post_id).1
     = (edit_post PostForm db request post_id).1) ∧
  (k ∉ form_keys ProfileForm_fields →
   (edit_profile ProfileForm db
      (set_POST request (<[k := v]> (POST_data request)))).1
     = (edit_profile ProfileForm db request).1).
Proof.
  split_and!; [reflexivity..| | |].
  - intros Hk Hd. split.
    + unfold add_comment, login_required, add_comment_view.
      cbn [set_POST user POST_data now].
      destruct (user request) as [|u]; [done|].
      destruct (get_object_or_404 _) as [post|]; [|done].
      destruct (form_ignores_other_key CommentForm_fields CommentForm db
                  None (POST_data request) None k v Hk Hd) as [-> ->].
      done.
    + unfold edit_comment, login_required, edit_comment_view.
      cbn [set_POST user POST_data now].
      destruct (user request) as [|u]; [done|].
      destruct (get_object_or_404 _) as [c|]; [|done].
      destruct (negb _); [done|].
      destruct (form_ignores_other_key CommentForm_fields CommentForm db
                  (Some c) (POST_data request) None k v Hk Hd) as [-> ->].
      by destruct (is_valid _ _ _ _ _).
  - intros Hk Hd.
    unfold edit_post, login_required, edit_post_view.
    cbn [set_POST user POST_data now].
    destruct (user request) as [|u]; [done|].
    destruct (get_object_or_404 _) as [p|]; [|done].
    destruct (negb _); [done|].
    destruct (form_ignores_other_key PostForm_fields PostForm db
                (Some p) (POST_data request) None k v Hk Hd) as [-> ->].
    by destruct (is_valid _ _ _ _ _).
  - intros Hk.
    unfold edit_profile, login_required, edit_profile_view.
    cbn [set_POST user POST_data now].
    destruct (user request) as [|u]; [done|].
    destruct (bound_form_ignores_other_key ProfileForm_fields ProfileForm db
                (Some u) (POST_data request) None k v Hk) as [-> ->].
    by destruct (is_valid _ _ _ _ _).
Qed.
End HandlerProperties.

(** * The further properties on the sample site *)

Lemma anonymous_request_goes_to_login_witness :
  delete_post db0 (request0 AnonymousUser POST new_post_data) 1
    = (db0, Redirect url_login) ∧
  delete_comment db0 (request0 AnonymousUser POST new_post_data) 77 99
    = (db0, Redirect url_login).
Proof.
  split.
  - apply (anonymous_request_goes_to_login sample_PostForm sample_CommentForm
             sample_ProfileForm db0
             (request0 AnonymousUser POST new_post_data) 1 1 eq_refl).
  - apply (anonymous_request_goes_to_login sample_PostForm sample_CommentForm
             sample_ProfileForm db0
             (request0 AnonymousUser POST new_post_data) 77 99 eq_refl).
Defined.

Lemma missing_record_is_404_witness :
  edit_post sample_PostForm db0 (request0 as_alice POST new_post_data) 77
    = (db0, Http404) ∧
  delete_comment db0 (request0 as_alice POST new_post_data) 1 99
    = (db0, Http404) ∧
  profile db0 (set_user (request0 as_alice POST new_post_data) as_bob) "carol"
    = (db0, Http404).
Proof.
  destruct (missing_record_is_404 sample_PostForm sample_CommentForm db0
              (request0 as_alice POST new_post_data) (1, alice) 77 99 eq_refl)
    as (Hpost & Hcomment & Hprofile).
  split_and!.
  - apply Hpost. reflexivity.
  - apply Hcomment. reflexivity.
  - apply Hprofile. intros i v Hv. table_cases Hv; discriminate.
Defined.

Lemma empty_submission_stores_nothing_witness :
  create_post sample_PostForm db0 (request0 as_alice POST ∅) =
    (db0, Render "blog/create.html" (ctx_form (mkForm None None))) ∧
  edit_post sample_PostForm db0 (request0 as_alice POST ∅) 1 =
    (db0, Render "blog/create.html" (ctx_form (mkForm None None))) ∧
  edit_comment sample_CommentForm db0 (request0 as_alice POST ∅) 1 1 =
    (db0, Render "blog/comment.html"
            (ctx_comment_form (mkForm None None) (1, comment1))) ∧
  add_comment sample_CommentForm db0 (request0 as_alice POST ∅) 1 =
    (db0, Redirect (url_post_detail 1)).
Proof.
  destruct (empty_submission_stores_nothing sample_PostForm
              sample_CommentForm db0 (request0 as_alice POST ∅) (1, alice)
              eq_refl eq_refl)
    as (Hcreate & Hedit & Hcomment & Hadd).
  split_and!.
  - apply Hcreate. reflexivity.
  - apply (Hedit 1 post1); reflexivity.
  - apply (Hcomment 1 1 comment1); reflexivity.
  - apply (Hadd 1 post1). reflexivity.
Defined.

Lemma edit_post_keeps_author_and_other_rows_witness :
  ∃ p',
    posts (edit_post sample_PostForm db0
             (request0 as_alice POST new_post_data) 1).1 !! 1 = Some p' ∧
    author p' = author post1 ∧ created_at p' = created_at post1.
Proof.
  apply (edit_post_keeps_author_and_other_rows sample_PostForm db0
           (request0 as_alice POST new_post_data) 1).
  reflexivity.
Defined.

Lemma edited_post_is_shown_to_author_witness :
  edit_post sample_PostForm db0 (request0 as_alice POST new_post_data) 1
    = (set_posts db0 (<[1 := edited_post1]> (posts db0)),
       Redirect (url_post_detail 1)) ∧
  post_detail (set_posts db0 (<[1 := edited_post1]> (posts db0)))
    (request0 as_alice POST new_post_data) 1 =
    (set_posts db0 (<[1 := edited_post1]> (posts db0)),
     Render "blog/detail.html"
       (ctx_detail (1, edited_post1) (mkForm None None)
          (order_by_created_at (post_comments db0 1)))).
Proof.
  apply (edited_post_is_shown_to_author sample_PostForm db0
           (request0 as_alice POST new_post_data) (1, alice) 1 post1).
  - reflexivity.
  - reflexivity.
  - reflexivity.
  - vm_compute. reflexivity.
Defined.

Lemma added_comment_is_stored_and_shown_witness :
  add_comment sample_CommentForm db0 (request0 as_bob POST new_text_data) 2
    = (set_comments db0 (<[4 := added_comment4]> (comments db0)),
       Redirect (url_post_detail 2)) ∧
  comments db0 !! 4 = None.
Proof.
  destruct (added_comment_is_stored_and_shown sample_CommentForm db0
              (request0 as_bob POST new_text_data) (2, bob) 2 post2)
    as (Hadd & Hfresh & _).
  - reflexivity.
  - reflexivity.
  - vm_compute. reflexivity.
  - split; [exact Hadd|exact Hfresh].
Defined.

Lemma creating_keeps_existing_rows_witness :
  posts (create_post sample_PostForm db0
           (request0 as_alice POST new_post_data)).1 !! 1 = Some post1 ∧
  comments (add_comment sample_CommentForm db0
              (request0 as_bob POST new_text_data) 2).1 !! 1 = Some comment1.
Proof.
  destruct (creating_keeps_existing_rows sample_PostForm sample_CommentForm
              db0 (request0 as_alice POST new_post_data) 2)
    as [(_ & _ & _ & Hposts) _].
  destruct (creating_keeps_existing_rows sample_PostForm sample_CommentForm
              db0 (request0 as_bob POST new_text_data) 2)
    as [_ (_ & _ & _ & Hcomments)].
  split.
  - apply Hposts. reflexivity.
  - apply Hcomments. reflexivity.
Defined.

Lemma created_post_is_shown_to_author_witness :
  posts db0 !! 5 = None ∧
  posts (create_post sample_PostForm db0
           (request0 as_alice POST new_post_data)).1 !! 5
    = Some created_post5 ∧
  post_detail
    (create_post sample_PostForm db0 (request0 as_alice POST new_post_data)).1
    (request0 as_alice POST new_post_data) 5 =
    ((create_post sample_PostForm db0
        (request0 as_alice POST new_post_data)).1,
     Render "blog/detail.html"
       (ctx_detail (5, created_post5) (mkForm None None)
          (order_by_created_at (post_comments db0 5)))).
Proof.
  apply (created_post_is_shown_to_author sample_PostForm db0
           (request0 as_alice POST new_post_data) (1, alice)).
  - reflexivity.
  - vm_compute. reflexivity.
Defined.

Lemma edit_comment_changes_text_only_witness :
  ∃ c',
    comments (edit_comment sample_CommentForm db0
                (request0 as_alice POST new_text_data) 3 1).1 !! 1 = Some c' ∧
    comment_author c' = comment_author comment1 ∧
    comment_post c' = comment_post comment1 ∧
    comment_created_at c' = comment_created_at comment1.
Proof.
  apply (edit_comment_changes_text_only sample_CommentForm db0
           (request0 as_alice POST new_text_data) 3 1).
  reflexivity.
Defined.

Lemma delete_comment_removes_one_comment_witness :
  delete_comment db0 (request0 as_alice GET ∅) 1 1 =
    (db0, Render "blog/comment.html" (ctx_comment (1, comment1))) ∧
  delete_comment db0 (request0 as_alice POST token_only) 1 1 =
    (set_comments db0 (delete 1 (comments db0)),
     Redirect (url_post_detail 1)) ∧
  delete_comment (set_comments db0 (delete 1 (comments db0)))
    (request0 as_alice POST token_only) 1 1 =
    (set_comments db0 (delete 1 (comments db0)), Http404).
Proof.
  destruct (delete_comment_removes_one_comment sample_CommentForm db0
              (request0 as_alice GET ∅) 1 1) as [_ Hget].
  destruct (delete_comment_removes_one_comment sample_CommentForm db0
              (request0 as_alice POST token_only) 1 1) as [_ Hpost].
  destruct (Hget (1, alice) comment1 eq_refl eq_refl eq_refl) as [Hget' _].
  destruct (Hpost (1, alice) comment1 eq_refl eq_refl eq_refl) as [_ Hpost'].
  destruct (Hpost' eq_refl) as (Hdel & Hagain & _).
  split_and!; [apply Hget'; reflexivity|exact Hdel|exact Hagain].
Defined.

Lemma delete_post_removes_the_post_witness :
  delete_post db0 (request0 as_alice GET ∅) 1 =
    (db0, Render "blog/create.html" (ctx_form (mkForm None None))) ∧
  delete_post db0 (request0 as_alice POST token_only) 1 =
    (Post_delete db0 1, Redirect url_index) ∧
  posts (Post_delete db0 1) !! 1 = None ∧
  post_detail (Post_delete db0 1)
    (set_user (request0 as_alice POST token_only) as_alice) 1 =
    (Post_delete db0 1, Http404).
Proof.
  destruct (delete_post_removes_the_post sample_PostForm sample_CommentForm
              db0 (request0 as_alice GET ∅) 1) as [_ Hget].
  destruct (delete_post_removes_the_post sample_PostForm sample_CommentForm
              db0 (request0 as_alice POST token_only) 1) as [_ Hpost].
  destruct (Hget (1, alice) post1 eq_refl eq_refl eq_refl) as [Hget' _].
  destruct (Hpost (1, alice) post1 eq_refl eq_refl eq_refl) as [_ Hpost'].
  destruct (Hpost' eq_refl) as (Hdel & Hgone & Hdetail & _).
  split_and!; [apply Hget'; reflexivity|exact Hdel|exact Hgone|].
  apply Hdetail.
Defined.


Lemma unlisted_keys_are_ignored_witness :
  add_comment sample_CommentForm db0
    (set_POST (request0 as_bob POST new_text_data)
       (<["author" := "1"]> new_text_data)) 2
    = add_comment sample_CommentForm db0 (request0 as_bob POST new_text_data) 2
  ∧
  (edit_post sample_PostForm db0
     (set_POST (request0 as_alice POST new_post_data)
        (<["created_at" := "0"]> new_post_data)) 1).1
    = (edit_post sample_PostForm db0
         (request0 as_alice POST new_post_data) 1).1.
Proof.
  destruct (unlisted_keys_are_ignored sample_PostForm sample_CommentForm
              sample_ProfileForm db0 (request0 as_bob POST new_text_data)
              "author" "1" 2 1) as (_ & _ & _ & (Hadd & _) & _ & _).
  { apply (bool_decide_unpack _). by vm_compute. }
  { apply (bool_decide_unpack _). by vm_compute. }
  destruct (unlisted_keys_are_ignored sample_PostForm sample_CommentForm
              sample_ProfileForm db0 (request0 as_alice POST new_post_data)
              "created_at" "0" 1 1) as (_ & _ & _ & _ & Hedit & _).
  split; [exact Hadd|].
  apply Hedit; apply (bool_decide_unpack _); by vm_compute.
Defined.

(** The check box of the image is among the keys [PostForm] is given: an
    edit without it keeps the image, an edit with it clears the image. *)
Example edit_post_reads_image_clear :
  image <$> posts (edit_post sample_PostForm db_photo
                     (request0 as_alice POST photo_data) 6).1 !! 6
    = Some (Some "a.png") ∧
  image <$> posts (edit_post sample_PostForm db_photo
                     (request0 as_alice POST
                        (<["image-clear" := "on"]> photo_data)) 6).1 !! 6
    = Some None.
Proof. split; vm_compute; reflexivity. Qed.
